
(** * docker-service-update: the spec merger and the convergence monitor

    A shallow embedding of [src/index.js] (class [DockerServices]):
    [adjustSpec], [adjust], [scale] and the polling loop of
    [waitUntilRunning].  The JavaScript numbers of the program hold
    integers and are in [Z]; a sum is rounded as a double is.  The
    orchestrator is a sequence of answers to [listTasks] plus one answer to
    [inspect]. *)

From Stdlib Require Import ZArith List String Ascii Bool Lia DecimalString.
Import ListNotations.
Open Scope string_scope.
Open Scope Z_scope.

(** ** JavaScript values *)

Set Warnings "-register-all".

Inductive JsVal : Type :=
| VUndef
| VNull
| VBool (b : bool)
| VNum (n : Z)
| VStr (s : string)
| VArr (items : list JsVal)
| VObj (fields : list (string * JsVal)).

(** ToBoolean: what [if (v)], [!v] and [v || d] test. *)
Definition truthy (v : JsVal) : bool :=
  match v with
  | VUndef | VNull => false
  | VBool b => b
  | VNum n => negb (n =? 0)
  | VStr s => negb (s =? "")%string
  | VArr _ | VObj _ => true
  end.

(** [a || b] *)
Definition jsOr (a b : JsVal) : JsVal := if truthy a then a else b.

(** [Array.prototype.includes] on strings. *)
Definition includes (l : list string) (x : string) : bool :=
  existsb (String.eqb x) l.

(** ** Tasks, as the orchestrator reports them *)

Record Task : Type := mkTask {
  ID : string;
  State : string;          (* tsk.Status.State *)
  Err : option string      (* tsk.Status.Err, when present *)
}.

(** ** The [DockerServices] object *)

Record DockerServices : Type := mkSelf {
  listener : bool;           (* is [this.listener] installed *)
  waitDelay : Z;
  monitorFor : Z;
  self_monitorCount : Z;     (* this.monitorCount *)
  maxWaitTimes : Z
}.

Record Options : Type := mkOptions {
  opt_waitDelay : option Z;
  opt_monitorFor : option Z;
  opt_waitTime : option Z;
  opt_listener : bool
}.

(** [options.x || d] for a numeric option: absent and [0] give [d]. *)
Definition orDefault (o : option Z) (d : Z) : Z :=
  match o with
  | Some n => if n =? 0 then d else n
  | None => d
  end.

(** The constructor.  The options are integers below 2^53 in magnitude,
    for which [Math.floor (a / b)], the floor of the double nearest to the
    quotient, is the floor of the quotient itself, [Z.div]; above, the
    double quotient can round up to the next integer, and such options, as
    well as fractional or non-finite ones, are not modelled. *)
Definition constructor (options : Options) : DockerServices :=
  let wd := orDefault (opt_waitDelay options) 2000 in
  let mf := orDefault (opt_monitorFor options) 3000 in
  let waitTime := orDefault (opt_waitTime options) (1000 * 60) in
  {| listener := opt_listener options;
     waitDelay := wd;
     monitorFor := mf;
     self_monitorCount := mf / wd;
     maxWaitTimes := waitTime / wd |}.

(** ** Diagnostic observations ([self.emit ('debug', ...)]) *)

Inductive Event : Type :=
| StartingMonitoring (name : string) (monitorCount waitDelay maxWaitTimes : Z)
| CheckTask (taskName id status : string) (checkCount monitorCount : Z)
| TaskRunning (taskName : string)
| NoTasksFound (taskName : string) (existingTasks tasks : nat)
| DoneMonitoring (taskName : string).

(** [emit]: the listener, when there is one, receives the event. *)
Definition emit (self : DockerServices) (ev : Event) (log : list Event)
  : list Event :=
  if listener self then log ++ [ev] else log.

(** ** The monitor session: the variables [checkTasks] closes over *)

Record Session : Type := mkSession {
  taskRunning : bool;
  times : Z;
  monitoring : JsVal;        (* holds whatever was passed as [monitor] *)
  monitorCount : Z;
  log : list Event;          (* what the listener has received *)
  polls : nat;               (* calls to [getTasks] made so far *)
  waits : nat                (* calls to [wait] made so far *)
}.

Definition set_log (l : list Event) (st : Session) : Session :=
  mkSession (taskRunning st) (times st) (monitoring st) (monitorCount st)
            l (polls st) (waits st).

Definition set_taskRunning (b : bool) (st : Session) : Session :=
  mkSession b (times st) (monitoring st) (monitorCount st)
            (log st) (polls st) (waits st).

Definition set_times (n : Z) (st : Session) : Session :=
  mkSession (taskRunning st) n (monitoring st) (monitorCount st)
            (log st) (polls st) (waits st).

Definition set_monitoring (v : JsVal) (st : Session) : Session :=
  mkSession (taskRunning st) (times st) v (monitorCount st)
            (log st) (polls st) (waits st).

Definition set_monitorCount (n : Z) (st : Session) : Session :=
  mkSession (taskRunning st) (times st) (monitoring st) n
            (log st) (polls st) (waits st).

Definition set_polls (n : nat) (st : Session) : Session :=
  mkSession (taskRunning st) (times st) (monitoring st) (monitorCount st)
            (log st) n (waits st).

Definition set_waits (n : nat) (st : Session) : Session :=
  mkSession (taskRunning st) (times st) (monitoring st) (monitorCount st)
            (log st) (polls st) n.

Definition emitS (self : DockerServices) (ev : Event) (st : Session)
  : Session :=
  set_log (emit self ev (log st)) st.

(** How a call of [waitUntilRunning] ends: one of its two [return]s, one of
    its two [throw]s, or not within the cycles allowed to the model. *)
Inductive ReturnSite : Type := NoTasks | Done.

Inductive Outcome : Type :=
| Return (site : ReturnSite)
| Throw (message : string)
| OutOfFuel.

(** The orchestrator's answers to successive [listTasks] calls. *)
Definition Provider : Type := nat -> list Task.

Definition isFailure (tsk : Task) : bool :=
  (State tsk =? "failed")%string || (State tsk =? "rejected")%string.

(** [tsk.Status.Err || null], as the template literal prints it. *)
Definition errMessage (tsk : Task) : string :=
  match Err tsk with
  | Some s => if (s =? "")%string then "null" else s
  | None => "null"
  end.

Definition failureMessage (tsk : Task) : string :=
  ID tsk ++ " returned status " ++ State tsk ++ " with " ++ errMessage tsk.

(** [tasks.forEach (tsk => ...)]: [Some msg] when the callback throws, and
    the value of [foundTasks] otherwise. *)
Fixpoint forEachTask (self : DockerServices) (name : string)
  (existing : list string) (tasks : list Task) (foundTasks : bool)
  (st : Session) : option string * bool * Session :=
  match tasks with
  | [] => (None, foundTasks, st)
  | tsk :: rest =>
      if negb (includes existing (ID tsk)) then
        let st1 :=
          emitS self (CheckTask name (ID tsk) (State tsk) (times st)
                                (monitorCount st)) st in
        if isFailure tsk then (Some (failureMessage tsk), true, st1)
        else
          let st2 :=
            if (State tsk =? "running")%string then
              set_taskRunning true
                (if negb (taskRunning st1)
                 then emitS self (TaskRunning name) st1 else st1)
            else st1 in
          forEachTask self name existing rest true st2
      else forEachTask self name existing rest foundTasks st
  end.

(** One execution of the body of [checkTasks], up to its recursive call:
    [inl] when it returns or throws, [inr] when it goes on to poll again. *)
Definition checkBody (self : DockerServices) (getTasks : Provider)
  (name : string) (existingTasks : list Task) (existing : list string)
  (st : Session) : (Outcome * Session) + Session :=
  let tasks := getTasks (polls st) in
  let st := set_polls (S (polls st)) st in
  match forEachTask self name existing tasks false st with
  | (Some msg, _, st) => inl (Throw msg, st)
  | (None, false, st) =>
      inl (Return NoTasks,
           emitS self (NoTasksFound name (List.length existingTasks)
                                    (List.length tasks)) st)
  | (None, true, st) =>
      let st := set_times (times st + 1) st in
      if (times st >? maxWaitTimes self) && negb (taskRunning st) then
        inl (Throw "service timed out", st)
      else if taskRunning st && negb (truthy (monitoring st)) then
        inl (Return Done, emitS self (DoneMonitoring name) st)
      else
        let st :=
          if taskRunning st && truthy (monitoring st) then
            let st := set_monitorCount (monitorCount st + 1) st in
            if monitorCount st >=? self_monitorCount self
            then set_monitoring (VBool false) st else st
          else st in
        inr (set_waits (S (waits st)) st)
  end.

(** [checkTasks], the recursion bounded by a number of cycles. *)
Fixpoint checkTasks (fuel : nat) (self : DockerServices)
  (getTasks : Provider) (name : string) (existingTasks : list Task)
  (existing : list string) (st : Session) : Outcome * Session :=
  match fuel with
  | O => (OutOfFuel, st)
  | S fuel' =>
      match checkBody self getTasks name existingTasks existing st with
      | inl r => r
      | inr st' =>
          checkTasks fuel' self getTasks name existingTasks existing st'
      end
  end.

(** The baseline [waitUntilRunning] computes from its own first fetch. *)
Definition baseline (existingTasks : list Task) : list string :=
  map ID
    (filter (fun tsk => negb (includes ["pending"; "new"] (State tsk)))
            existingTasks).

(** [waitUntilRunning (name, monitor)].  [polls0] is the number of
    [listTasks] calls made before it and [log0] what the listener has
    already received. *)
Definition waitUntilRunning (fuel : nat) (self : DockerServices)
  (getTasks : Provider) (name : string) (monitor : JsVal)
  (polls0 : nat) (log0 : list Event) : Outcome * Session :=
  let existingTasks := getTasks polls0 in
  let existing := baseline existingTasks in
  let st :=
    {| taskRunning := false;
       times := 0;
       monitoring := monitor;
       monitorCount := 0;
       log := emit self (StartingMonitoring name (self_monitorCount self)
                           (waitDelay self) (maxWaitTimes self)) log0;
       polls := S polls0;
       waits := 1 |} in
  checkTasks fuel self getTasks name existingTasks existing st.

(** Poll cycles ([checkTasks] bodies) a call starting at [polls0] ran. *)
Definition cycles (polls0 : nat) (r : Outcome * Session) : nat :=
  (polls (snd r) - S polls0)%nat.

(** ** The monitor when the orchestrator may refuse a fetch

    [getTasks] returns a promise; when the orchestrator refuses the call the
    promise is rejected, and nothing in [waitUntilRunning] catches the
    rejection of an [await]: the call of [waitUntilRunning] is rejected with
    the same reason.  [Provider] above is the orchestrator that answers
    every fetch; this one may refuse some. *)
Inductive Fetch : Type :=
| Answered (tasks : list Task)
| Refused (reason : string).

Definition FallibleProvider : Type := nat -> Fetch.

(** The body of [checkTasks]: the [await] of the fetch, then the body as
    above on the tasks it gave. *)
Definition checkBodyF (self : DockerServices) (getTasks : FallibleProvider)
  (name : string) (existingTasks : list Task) (existing : list string)
  (st : Session) : (Outcome * Session) + Session :=
  match getTasks (polls st) with
  | Refused reason => inl (Throw reason, set_polls (S (polls st)) st)
  | Answered tasks =>
      checkBody self (fun _ => tasks) name existingTasks existing st
  end.

Fixpoint checkTasksF (fuel : nat) (self : DockerServices)
  (getTasks : FallibleProvider) (name : string) (existingTasks : list Task)
  (existing : list string) (st : Session) : Outcome * Session :=
  match fuel with
  | O => (OutOfFuel, st)
  | S fuel' =>
      match checkBodyF self getTasks name existingTasks existing st with
      | inl r => r
      | inr st' =>
          checkTasksF fuel' self getTasks name existingTasks existing st'
      end
  end.

(** [waitUntilRunning]: when the first fetch is refused the call is
    rejected before anything is emitted and before the first wait. *)
Definition waitUntilRunningF (fuel : nat) (self : DockerServices)
  (getTasks : FallibleProvider) (name : string) (monitor : JsVal)
  (polls0 : nat) (log0 : list Event) : Outcome * Session :=
  match getTasks polls0 with
  | Refused reason =>
      (Throw reason, mkSession false 0 monitor 0 log0 (S polls0) 0)
  | Answered existingTasks =>
      let existing := baseline existingTasks in
      let st :=
        {| taskRunning := false;
           times := 0;
           monitoring := monitor;
           monitorCount := 0;
           log := emit self (StartingMonitoring name (self_monitorCount self)
                               (waitDelay self) (maxWaitTimes self)) log0;
           polls := S polls0;
           waits := 1 |} in
      checkTasksF fuel self getTasks name existingTasks existing st
  end.

(** ** Service specifications

    The part of the orchestrator's service document that [adjustSpec]
    reads and writes.  The leaves that [adjustSpec] overwrites with values
    taken from [options] are JavaScript values; [TaskTemplate] and its
    [ContainerSpec] are there, as in every service document the
    orchestrator returns; [Mode] and [Replicated] are objects when present,
    and [ForceUpdate] is a number when present.  An object is its list of
    properties; a property whose value is [undefined] is left out. *)

Definition Obj : Type := list (string * JsVal).

Definition isUndef (v : JsVal) : bool :=
  match v with VUndef => true | _ => false end.

Fixpoint getProp (key : string) (o : Obj) : JsVal :=
  match o with
  | [] => VUndef
  | (k, v) :: rest => if (k =? key)%string then v else getProp key rest
  end.

(** [delete o[key]] *)
Definition deleteProp (key : string) (o : Obj) : Obj :=
  filter (fun kv => negb (fst kv =? key)%string) o.

Record ContainerSpecT : Type := mkContainerSpec {
  Image : JsVal;
  Env : JsVal;
  Labels : JsVal;
  containerSpec_rest : Obj
}.

Record TaskTemplateT : Type := mkTaskTemplate {
  ContainerSpec : ContainerSpecT;
  ForceUpdate : option Z;
  taskTemplate_rest : Obj
}.

Record ReplicatedT : Type := mkReplicated {
  Replicas : JsVal;
  replicated_rest : Obj
}.

Record ModeT : Type := mkMode {
  Replicated : option ReplicatedT;
  mode_rest : Obj
}.

Record ServiceSpec : Type := mkSpec {
  Name : string;
  version : option Z;
  TaskTemplate : TaskTemplateT;
  Mode : option ModeT;
  spec_rest : Obj
}.

Definition set_Image (v : JsVal) (s : ServiceSpec) : ServiceSpec :=
  let tt := TaskTemplate s in
  let cs := ContainerSpec tt in
  mkSpec (Name s) (version s)
    (mkTaskTemplate
       (mkContainerSpec v (Env cs) (Labels cs) (containerSpec_rest cs))
       (ForceUpdate tt) (taskTemplate_rest tt))
    (Mode s) (spec_rest s).

Definition set_Env (v : JsVal) (s : ServiceSpec) : ServiceSpec :=
  let tt := TaskTemplate s in
  let cs := ContainerSpec tt in
  mkSpec (Name s) (version s)
    (mkTaskTemplate
       (mkContainerSpec (Image cs) v (Labels cs) (containerSpec_rest cs))
       (ForceUpdate tt) (taskTemplate_rest tt))
    (Mode s) (spec_rest s).

Definition set_Labels (v : JsVal) (s : ServiceSpec) : ServiceSpec :=
  let tt := TaskTemplate s in
  let cs := ContainerSpec tt in
  mkSpec (Name s) (version s)
    (mkTaskTemplate
       (mkContainerSpec (Image cs) (Env cs) v (containerSpec_rest cs))
       (ForceUpdate tt) (taskTemplate_rest tt))
    (Mode s) (spec_rest s).

Definition set_ForceUpdate (n : Z) (s : ServiceSpec) : ServiceSpec :=
  let tt := TaskTemplate s in
  mkSpec (Name s) (version s)
    (mkTaskTemplate (ContainerSpec tt) (Some n) (taskTemplate_rest tt))
    (Mode s) (spec_rest s).

Definition set_Mode (m : ModeT) (s : ServiceSpec) : ServiceSpec :=
  mkSpec (Name s) (version s) (TaskTemplate s) (Some m) (spec_rest s).

Definition set_version (n : Z) (s : ServiceSpec) : ServiceSpec :=
  mkSpec (Name s) (Some n) (TaskTemplate s) (Mode s) (spec_rest s).

(** ** The libraries [adjustSpec] calls

    [Joi], [aug] and [lib/utils] are not part of [src/index.js]; the
    embedding takes what they compute as parameters.  [joi t v] says whether
    the Joi type [t] accepts the defined value [v] (with whatever coercion
    of strings Joi applies); [propertyKey] is JavaScript's conversion of a
    value to a property name. *)

Inductive JoiType : Type :=
| JoiString | JoiObject | JoiArray | JoiNumber | JoiBoolean.

Record Deps : Type := mkDeps {
  joi : JoiType -> JsVal -> bool;
  aug : JsVal -> JsVal -> Obj;
  arrToObj : JsVal -> JsVal;
  objToArr : Obj -> JsVal;
  propertyKey : JsVal -> string
}.

Inductive Reason : Type :=
| MustBe (t : JoiType)      (* the value is not of the key's type *)
| NotAllowed.               (* the key is not in the schema *)

(** The call at which the engine raised a [TypeError]; the text of the
    engine's message is not modelled. *)
Inductive TypeErrorSite : Type :=
| ForEachOfNonArray     (* options.envRemove.forEach, options.labelRemove.forEach *)
| SplitOfNonString.     (* spec.TaskTemplate.ContainerSpec.Image.split *)

Inductive Error : Type :=
| ValidationError (key : string) (why : Reason)
| TypeError (site : TypeErrorSite).

(** The schema object handed to [Joi.validate]. *)
Definition schema : list (string * JoiType) :=
  [ ("image", JoiString);
    ("env", JoiObject);
    ("envRemove", JoiArray);
    ("labels", JoiObject);
    ("labelRemove", JoiArray);
    ("replicas", JoiNumber);
    ("force", JoiBoolean) ].

Definition known (key : string) : bool :=
  existsb (fun kt => (fst kt =? key)%string) schema.

(** [Joi.validate (options, schema).error] with Joi's defaults: no key is
    required, a key of the schema that is defined must be of its type, and
    a key outside the schema is not allowed ([allowUnknown] is off); the
    first error is reported, keys of the schema first. *)
Definition validate (L : Deps) (options : Obj) : option Error :=
  match
    find (fun kt =>
            negb (isUndef (getProp (fst kt) options))
            && negb (joi L (snd kt) (getProp (fst kt) options))) schema
  with
  | Some (k, t) => Some (ValidationError k (MustBe t))
  | None =>
      match find (fun kv => negb (known (fst kv))) options with
      | Some (k, _) => Some (ValidationError k NotAllowed)
      | None => None
      end
  end.

(** The double nearest to an integer, ties going to the even significand.
    It is the integer itself up to 2^53 in magnitude; beyond, the bits that
    a significand of 53 bits cannot hold are rounded away.  Magnitudes that
    overflow a double (2^1024 and more) are not modelled. *)
Definition roundToDouble (x : Z) : Z :=
  let m := Z.abs x in
  if m <=? 2 ^ 53 then x
  else
    let e := Z.log2 m - 52 in
    let q := m / 2 ^ e in
    let r := m mod 2 ^ e in
    let half := 2 ^ (e - 1) in
    let q' :=
      if r <? half then q
      else if half <? r then q + 1
      else if Z.even q then q else q + 1 in
    Z.sgn x * (q' * 2 ^ e).

Arguments roundToDouble x : simpl never.

(** [a + b] on two numbers that hold integers: the exact sum, rounded to
    the nearest double. *)
Definition jsAdd (a b : Z) : Z := roundToDouble (a + b).

(** [String.prototype.split ('@')[0]]: what precedes the first [@]. *)
Fixpoint beforeAt (s : string) : string :=
  match s with
  | EmptyString => EmptyString
  | String c rest =>
      if Ascii.eqb c "@"%char then EmptyString else String c (beforeAt rest)
  end.

(** [adjustSpec] mutates the object it is given and returns that object:
    a step maps the object's state to its new state and says whether the
    step threw. *)
Definition Step : Type := ServiceSpec -> ServiceSpec * option Error.

Definition andThen (a b : Step) : Step :=
  fun s =>
    match a s with
    | (s', None) => b s'
    | r => r
    end.

Notation "a ;; b" := (andThen a b) (at level 61, right associativity).

(** [if (keys) { keys.forEach (e => delete merged[e]) }] *)
Definition removeKeys (L : Deps) (keys : JsVal) (merged : Obj)
  : Error + Obj :=
  if truthy keys then
    match keys with
    | VArr items =>
        inr (fold_left (fun m e => deleteProp (propertyKey L e) m)
                       items merged)
    | _ => inl (TypeError ForEachOfNonArray)
    end
  else inr merged.

Definition validateStep (L : Deps) (options : Obj) : Step :=
  fun s => (s, validate L options).

Definition imageStep (options : Obj) : Step :=
  fun s =>
    if truthy (getProp "image" options)
    then (set_Image (getProp "image" options) s, None)
    else (s, None).

Definition envStep (L : Deps) (options : Obj) : Step :=
  fun s =>
    if truthy (jsOr (getProp "env" options) (getProp "envRemove" options))
    then
      let env :=
        arrToObj L (jsOr (Env (ContainerSpec (TaskTemplate s))) (VArr [])) in
      let merged := aug L env (getProp "env" options) in
      match removeKeys L (getProp "envRemove" options) merged with
      | inl e => (s, Some e)
      | inr merged => (set_Env (objToArr L merged) s, None)
      end
    else (s, None).

Definition labelsStep (L : Deps) (options : Obj) : Step :=
  fun s =>
    if truthy (jsOr (getProp "labels" options)
                    (getProp "labelRemove" options))
    then
      let merged :=
        aug L (Labels (ContainerSpec (TaskTemplate s)))
              (jsOr (getProp "labels" options) (VObj [])) in
      match removeKeys L (getProp "labelRemove" options) merged with
      | inl e => (s, Some e)
      | inr merged => (set_Labels (VObj merged) s, None)
      end
    else (s, None).

Definition replicasStep (options : Obj) : Step :=
  fun s =>
    if truthy (getProp "replicas" options) then
      let mode :=
        match Mode s with Some m => m | None => mkMode None [] end in
      let replicated :=
        match Replicated mode with
        | Some r => r
        | None => mkReplicated VUndef []
        end in
      (set_Mode
         (mkMode
            (Some (mkReplicated (getProp "replicas" options)
                                (replicated_rest replicated)))
            (mode_rest mode)) s, None)
    else (s, None).

Definition forceStep (options : Obj) : Step :=
  fun s =>
    if truthy (getProp "force" options) then
      let updateCount := orDefault (ForceUpdate (TaskTemplate s)) 0 in
      let s := set_ForceUpdate (jsAdd updateCount 1) s in
      match Image (ContainerSpec (TaskTemplate s)) with
      | VStr image => (set_Image (VStr (beforeAt image)) s, None)
      | _ => (s, Some (TypeError SplitOfNonString))
      end
    else (s, None).

(** [adjustSpec (spec, options)]: the state of the spec object after the
    call, and the error if it threw; when it did not, the object is what
    the call returns. *)
Definition adjustSpec (L : Deps) (spec : ServiceSpec) (options : Obj)
  : ServiceSpec * option Error :=
  (validateStep L options ;;
   imageStep options ;;
   envStep L options ;;
   labelsStep L options ;;
   replicasStep options ;;
   forceStep options) spec.

(** ** [adjust] and [scale] *)

Record ServiceInfo : Type := mkInfo {
  Spec : ServiceSpec;
  VersionIndex : Z
}.

(** The orchestrator: its answers to [listTasks] and to [inspect]; the
    calls are taken to succeed. *)
Record Orchestrator : Type := mkOrch {
  listTasks : Provider;
  inspect : ServiceInfo
}.

(** Calls to the orchestrator that [adjust] makes itself. *)
Inductive Call : Type :=
| ListTasksCall (name : string)
| InspectCall (name : string)
| UpdateCall (name : string) (spec : ServiceSpec).

Record AdjustRun : Type := mkRun {
  net : list Call;
  result : Error + (Outcome * Session * ServiceSpec)
}.

Definition adjust (fuel : nat) (self : DockerServices) (L : Deps)
  (orch : Orchestrator) (name : string) (options : Obj) : AdjustRun :=
  let existingTasks := listTasks orch 0%nat in
  let serviceSpec := inspect orch in
  let reads := [ListTasksCall name; InspectCall name] in
  let existing := map ID existingTasks in
  let spec := set_version (VersionIndex serviceSpec) (Spec serviceSpec) in
  match adjustSpec L spec options with
  | (_, Some e) => mkRun reads (inl e)
  | (newSpec, None) =>
      let r :=
        waitUntilRunning fuel self (listTasks orch) name
          (VArr (map VStr existing)) 1 [] in
      mkRun (reads ++ [UpdateCall name newSpec]) (inr (r, newSpec))
  end.

Definition scale (fuel : nat) (self : DockerServices) (L : Deps)
  (orch : Orchestrator) (name : string) (replicas : JsVal) : AdjustRun :=
  adjust fuel self L orch name [("replicas", replicas)].

(** ** A reference instance of the libraries

    Joi's types without coercion, a shallow [aug], and the two helpers of
    [lib/utils]. *)

Definition joiStrict (t : JoiType) (v : JsVal) : bool :=
  match t, v with
  | JoiString, VStr s => negb (s =? "")%string
  | JoiObject, VObj _ => true
  | JoiArray, VArr _ => true
  | JoiNumber, VNum _ => true
  | JoiBoolean, VBool _ => true
  | _, _ => false
  end.

Definition setProp (key : string) (v : JsVal) (o : Obj) : Obj :=
  if existsb (fun kv => (fst kv =? key)%string) o
  then map (fun kv => if (fst kv =? key)%string then (key, v) else kv) o
  else (o ++ [(key, v)])%list.

Definition augShallow (target source : JsVal) : Obj :=
  let base := match target with VObj f => f | _ => [] end in
  match source with
  | VObj f => fold_left (fun o kv => setProp (fst kv) (snd kv) o) f base
  | _ => base
  end.

(** The text before the first [=] and the text after it. *)
Fixpoint splitEq (s : string) : string * string :=
  match s with
  | EmptyString => (EmptyString, EmptyString)
  | String c rest =>
      if Ascii.eqb c "="%char then (EmptyString, rest)
      else let (k, v) := splitEq rest in (String c k, v)
  end.

(** Modelled from the spec: [utils.arrToObj] of [lib/utils], which is not
    among the sources: "convert the spec's current environment list to a
    key -> value mapping". *)
Definition arrToObjModel (v : JsVal) : JsVal :=
  match v with
  | VArr items =>
      VObj (fold_left
              (fun o e =>
                 match e with
                 | VStr s => let (k, x) := splitEq s in setProp k (VStr x) o
                 | _ => o
                 end) items [])
  | _ => VObj []
  end.

(** JavaScript's ToString, which also gives the property name a value
    stands for. *)
Fixpoint jsToString (v : JsVal) : string :=
  match v with
  | VStr s => s
  | VBool true => "true"
  | VBool false => "false"
  | VNull => "null"
  | VUndef => "undefined"
  | VNum n => NilZero.string_of_int (Z.to_int n)
  | VArr items =>
      (fix join (l : list JsVal) : string :=
         match l with
         | [] => ""
         | x :: rest =>
             let sx :=
               match x with
               | VUndef | VNull => ""
               | _ => jsToString x
               end in
             match rest with
             | [] => sx
             | _ => sx ++ "," ++ join rest
             end
         end) items
  | VObj _ => "[object Object]"
  end.

(** Modelled from the spec: [utils.objToArr] of [lib/utils], which is not
    among the sources: "serialize back to a list of KEY=VALUE strings". *)
Definition objToArrModel (o : Obj) : JsVal :=
  VArr (map (fun kv => VStr (fst kv ++ "=" ++ jsToString (snd kv))) o).

Definition refDeps : Deps :=
  mkDeps joiStrict augShallow arrToObjModel objToArrModel jsToString.


(** A task the monitor reacts to: its identifier is not in the baseline. *)
Definition isNew (existing : list string) (tsk : Task) : bool :=
  negb (includes existing (ID tsk)).

Definition isRunning (tsk : Task) : bool := (State tsk =? "running")%string.

(** No new task in the snapshot failed or was rejected. *)
Definition noFailure (existing : list string) (tasks : list Task) : Prop :=
  forall tsk, In tsk tasks -> isNew existing tsk = true ->
              isFailure tsk = false.

(** The value of [taskRunning] after the scan of a snapshot in which no
    new task failed. *)
Definition runningAfter (existing : list string) (st : Session)
  (tasks : list Task) : bool :=
  taskRunning st
  || existsb (fun x => isNew existing x && isRunning x) tasks.

(** Every new task of the snapshot is still on its way (neither running
    nor failed nor rejected), and there is at least one. *)
Definition unsettled (existing : list string) (tasks : list Task) : Prop :=
  existsb (isNew existing) tasks = true /\
  forall tsk, In tsk tasks -> isNew existing tsk = true ->
              isFailure tsk = false /\ isRunning tsk = false.

(** Cycles the loop can still go through without ending: the part of
    the poll budget not yet used while nothing runs, plus the extra cycles
    extended monitoring still asks for. *)
Definition cyclesLeft (self : DockerServices) (st : Session) : nat :=
  ((if taskRunning st then 0
    else Z.to_nat (maxWaitTimes self - times st))
   + (if truthy (monitoring st)
      then 1 + Z.to_nat (self_monitorCount self - monitorCount st)
      else 0))%nat.

(** Two sessions that differ at most in the value held by [monitoring],
    which is truthy in both or in neither. *)
Definition agree (a b : Session) : Prop :=
  taskRunning a = taskRunning b /\ times a = times b /\
  monitorCount a = monitorCount b /\ log a = log b /\
  polls a = polls b /\ waits a = waits b /\
  truthy (monitoring a) = truthy (monitoring b).

(** A step that leaves [spec.Mode] alone, thrown or not. *)
Definition keepsMode (f : Step) : Prop :=
  forall s, Mode (fst (f s)) = Mode s.

(** A step that can only throw a [TypeError]. *)
Definition throwsTypeErrorOnly (f : Step) : Prop :=
  forall s e, snd (f s) = Some e -> exists what, e = TypeError what.

(** ** Scenarios used to exercise the embedding *)

Definition defaultSelf : DockerServices :=
  constructor (mkOptions None None None true).

Definition exampleSpec : ServiceSpec :=
  mkSpec "svc-x" None
    (mkTaskTemplate
       (mkContainerSpec (VStr "app:1@sha256:0123abcd")
                        (VArr [VStr "A=0"; VStr "B=2"]) (VObj []) [])
       None [])
    (Some (mkMode (Some (mkReplicated (VNum 3) [])) []))
    [].

(** A poll budget of 3 cycles: a wait time of 6000 ms at the default
    delay of 2000 ms. *)
Definition budget3 : DockerServices :=
  constructor (mkOptions None None (Some 6000) false).

Definition settledOnly : Provider :=
  fun _ => [mkTask "t1" "running" None; mkTask "t0" "shutdown" None].

Definition rejectedAtOnce : Provider :=
  fun k =>
    match k with
    | O => [mkTask "t1" "running" None]
    | _ => [mkTask "t1" "running" None;
            mkTask "t2" "rejected" (Some "No such image")]
    end.


Definition pendingForever : Provider :=
  fun k =>
    match k with
    | O => [mkTask "t1" "running" None]
    | _ => [mkTask "t1" "running" None; mkTask "t2" "pending" None]
    end.

Definition pendingThenRunning : Provider :=
  fun k =>
    match k with
    | O => [mkTask "t1" "running" None]
    | 1%nat => [mkTask "t1" "running" None; mkTask "t2" "pending" None]
    | _ => [mkTask "t1" "running" None; mkTask "t2" "running" None]
    end.

(** The update replaces [t1] by [t2], and [t2] has already failed when
    the monitor makes its first fetch. *)
Definition replacementFailedEarly : Orchestrator :=
  mkOrch
    (fun k =>
       match k with
       | O => [mkTask "t1" "running" None]
       | _ => [mkTask "t1" "shutdown" None;
               mkTask "t2" "failed" (Some "task: non-zero exit (1)")]
       end)
    (mkInfo exampleSpec 7).

(** [t1] is pending before the update and still pending at the monitor's
    first fetch; it is rejected afterwards. *)
Definition pendingBeforeUpdate : Orchestrator :=
  mkOrch
    (fun k =>
       match k with
       | O | 1%nat => [mkTask "t1" "pending" None]
       | _ => [mkTask "t1" "rejected" None]
       end)
    (mkInfo exampleSpec 7).

(** As [pendingThenRunning], but the baseline task [t1] is reported
    failed on the first cycle and is gone on the later ones. *)
Definition baselineTaskFails : Provider :=
  fun k =>
    match k with
    | O => [mkTask "t1" "running" None]
    | 1%nat => [mkTask "t1" "failed" (Some "killed");
                mkTask "t2" "pending" None]
    | _ => [mkTask "t2" "running" None]
    end.

(** A step that leaves a part of the spec alone, thrown or not. *)
Definition keeps {A : Type} (part : ServiceSpec -> A) (f : Step) : Prop :=
  forall s, part (fst (f s)) = part s.

Definition imageOf (s : ServiceSpec) : JsVal :=
  Image (ContainerSpec (TaskTemplate s)).

Definition envOf (s : ServiceSpec) : JsVal :=
  Env (ContainerSpec (TaskTemplate s)).

Definition labelsOf (s : ServiceSpec) : JsVal :=
  Labels (ContainerSpec (TaskTemplate s)).

Definition forceUpdateOf (s : ServiceSpec) : option Z :=
  ForceUpdate (TaskTemplate s).

(** The parts of the spec no branch of [adjustSpec] assigns to. *)
Definition untouchedParts (s : ServiceSpec)
  : string * option Z * Obj * Obj * Obj :=
  (Name s, version s, spec_rest s, taskTemplate_rest (TaskTemplate s),
   containerSpec_rest (ContainerSpec (TaskTemplate s))).

(** The other properties of [spec.Mode] and of [spec.Mode.Replicated],
    with [{}] for an object that is not there. *)
Definition modeRest (s : ServiceSpec) : Obj :=
  match Mode s with Some m => mode_rest m | None => [] end.

Definition replicatedRest (s : ServiceSpec) : Obj :=
  match Mode s with
  | Some m =>
      match Replicated m with Some r => replicated_rest r | None => [] end
  | None => []
  end.

(** A service document without an image reference. *)
Definition imagelessSpec : ServiceSpec :=
  mkSpec "svc-y" None
    (mkTaskTemplate (mkContainerSpec VUndef VUndef VUndef []) (Some 4) [])
    None [].

(** Two logs that are the same, or that both end with the "No tasks
    found" observation and differ in nothing but the number of tasks it
    reports. *)
Definition sameUpToTaskCount (la lb : list Event) : Prop :=
  la = lb \/
  exists l taskName n k k',
    la = (l ++ [NoTasksFound taskName n k])%list /\
    lb = (l ++ [NoTasksFound taskName n k'])%list.


(** A service whose force-update counter is 2^53. *)
Definition counterAtLimit : ServiceSpec :=
  mkSpec "svc-z" None
    (mkTaskTemplate (mkContainerSpec (VStr "app:1") VUndef VUndef [])
                    (Some (2 ^ 53)) [])
    None [].


(** * Properties of the convergence monitor *)

Section ForEach.

Variable self : DockerServices.
Variable name : string.
Variable existing : list string.

(** The scan writes [taskRunning] and the log, and nothing else. *)
Lemma forEachTask_frame (tasks : list Task) :
  forall found st o found' st',
    forEachTask self name existing tasks found st = (o, found', st') ->
    times st' = times st /\ monitoring st' = monitoring st /\
    monitorCount st' = monitorCount st /\ polls st' = polls st /\
    waits st' = waits st /\
    (taskRunning st = true -> taskRunning st' = true).
Proof.
  induction tasks as [|tsk rest IH]; intros found st o found' st' H.
  - simpl in H. inversion H; subst. repeat split; auto.
  - simpl in H.
    destruct (negb (includes existing (ID tsk))).
    + destruct (isFailure tsk).
      * inversion H; subst. simpl. repeat split; auto.
      * apply IH in H. destruct st as [r t m c l p w]. simpl in *.
        destruct (State tsk =? "running")%string; destruct r; simpl in H;
          destruct H as (H1 & H2 & H3 & H4 & H5 & H6);
          repeat split; auto.
    + apply IH in H. exact H.
Qed.

(** With no new task in the snapshot the scan does nothing. *)
Lemma forEachTask_none_new (tasks : list Task) :
  forall found st,
    (forall tsk, In tsk tasks -> includes existing (ID tsk) = true) ->
    forEachTask self name existing tasks found st = (None, found, st).
Proof.
  induction tasks as [|tsk rest IH]; intros found st Hall; simpl.
  - reflexivity.
  - rewrite (Hall tsk (or_introl eq_refl)). simpl.
    apply IH. intros t Ht. apply Hall. right. exact Ht.
Qed.

(** The scan throws at the first new task that failed or was rejected. *)
Lemma forEachTask_failure (tasks : list Task) :
  forall found st tsk,
    find (fun t => isNew existing t && isFailure t) tasks = Some tsk ->
    exists st',
      forEachTask self name existing tasks found st
      = (Some (failureMessage tsk), true, st').
Proof.
  induction tasks as [|t rest IH]; intros found st tsk Hf; simpl in Hf.
  - discriminate.
  - simpl. unfold isNew in Hf.
    destruct (negb (includes existing (ID t))); simpl in Hf.
    + destruct (isFailure t).
      * inversion Hf; subst. eexists. reflexivity.
      * apply IH. exact Hf.
    + apply IH. exact Hf.
Qed.

(** When no new task failed, the scan ends normally: [foundTasks] tells
    whether the snapshot has a new task, and [taskRunning] is raised when
    one of them is running. *)
Lemma forEachTask_ok (tasks : list Task) :
  forall found r t m c l p w,
    (forall tsk, In tsk tasks -> isNew existing tsk = true ->
                 isFailure tsk = false) ->
    exists l',
      forEachTask self name existing tasks found (mkSession r t m c l p w)
      = (None,
         found || existsb (isNew existing) tasks,
         mkSession
           (r || existsb (fun x => isNew existing x && isRunning x) tasks)
           t m c l' p w).
Proof.
  induction tasks as [|tsk rest IH]; intros found r t m c l p w Hok.
  - simpl. exists l. rewrite !orb_false_r. reflexivity.
  - assert (Hrest : forall x, In x rest -> isNew existing x = true ->
                              isFailure x = false)
      by (intros x Hx; apply Hok; right; exact Hx).
    pose proof (Hok tsk (or_introl eq_refl)) as Hhd.
    simpl. unfold isNew in *. unfold isRunning.
    destruct (negb (includes existing (ID tsk))); simpl.
    + rewrite (Hhd eq_refl). unfold emitS, set_log, set_taskRunning. simpl.
      destruct (State tsk =? "running")%string; simpl.
      * destruct (IH true true t m c
                    (if negb r
                     then emit self (TaskRunning name)
                            (emit self (CheckTask name (ID tsk) (State tsk)
                                                  t c) l)
                     else emit self (CheckTask name (ID tsk) (State tsk)
                                               t c) l)
                    p w Hrest) as [l' Hl'].
        exists l'. destruct r; simpl in *; rewrite Hl';
          rewrite ?orb_true_r; reflexivity.
      * destruct (IH true r t m c
                    (emit self (CheckTask name (ID tsk) (State tsk) t c) l)
                    p w Hrest) as [l' Hl'].
        exists l'. rewrite Hl'. rewrite orb_true_r. reflexivity.
    + destruct (IH found r t m c l p w Hrest) as [l' Hl'].
      exists l'. rewrite Hl'. reflexivity.
Qed.

End ForEach.

Lemma existsb_none {A : Type} (f : A -> bool) (l : list A) :
  (forall x, In x l -> f x = false) -> existsb f l = false.
Proof.
  induction l as [|a l IH]; intros H; simpl.
  - reflexivity.
  - rewrite (H a (or_introl eq_refl)). simpl.
    apply IH. intros x Hx. apply H. right. exact Hx.
Qed.

Section Cycle.

Variable self : DockerServices.
Variable getTasks : Provider.
Variable name : string.
Variable existingTasks : list Task.
Variable existing : list string.

Let body := checkBody self getTasks name existingTasks existing.

(** A cycle that sees new tasks, none of them failed, and none running so
    far, within the budget: the monitor waits and polls again. *)
Lemma checkBody_waiting (st : Session) :
  noFailure existing (getTasks (polls st)) ->
  existsb (isNew existing) (getTasks (polls st)) = true ->
  runningAfter existing st (getTasks (polls st)) = false ->
  times st + 1 <= maxWaitTimes self ->
  exists l',
    body st = inr (mkSession false (times st + 1) (monitoring st)
                     (monitorCount st) l' (S (polls st)) (S (waits st))).
Proof.
  intros Hok Hnew Hrun Hle. destruct st as [r t m c l p w].
  unfold body, checkBody. simpl in *.
  destruct (forEachTask_ok self name existing (getTasks p) false
              r t m c l (S p) w Hok) as [l' Hl'].
  unfold set_polls. simpl. rewrite Hl'. rewrite Hnew. simpl.
  unfold runningAfter in Hrun. simpl in Hrun. rewrite Hrun. simpl.
  replace (t + 1 >? maxWaitTimes self) with false
    by (symmetry; rewrite Z.gtb_ltb; apply Z.ltb_ge; lia).
  simpl. exists l'. reflexivity.
Qed.

(** The same cycle once the counter exceeds the budget: timeout. *)
Lemma checkBody_timeout (st : Session) :
  noFailure existing (getTasks (polls st)) ->
  existsb (isNew existing) (getTasks (polls st)) = true ->
  runningAfter existing st (getTasks (polls st)) = false ->
  maxWaitTimes self < times st + 1 ->
  exists l',
    body st = inl (Throw "service timed out",
                   mkSession false (times st + 1) (monitoring st)
                     (monitorCount st) l' (S (polls st)) (waits st)).
Proof.
  intros Hok Hnew Hrun Hlt. destruct st as [r t m c l p w].
  unfold body, checkBody. simpl in *.
  destruct (forEachTask_ok self name existing (getTasks p) false
              r t m c l (S p) w Hok) as [l' Hl'].
  unfold set_polls. simpl. rewrite Hl'. rewrite Hnew. simpl.
  unfold runningAfter in Hrun. simpl in Hrun. rewrite Hrun. simpl.
  replace (t + 1 >? maxWaitTimes self) with true
    by (symmetry; rewrite Z.gtb_ltb; apply Z.ltb_lt; lia).
  simpl. exists l'. reflexivity.
Qed.

(** A cycle with a running new task and no extended monitoring (left):
    the monitor returns through "Done monitoring tasks". *)
Lemma checkBody_done (st : Session) :
  noFailure existing (getTasks (polls st)) ->
  existsb (isNew existing) (getTasks (polls st)) = true ->
  runningAfter existing st (getTasks (polls st)) = true ->
  truthy (monitoring st) = false ->
  exists l',
    body st = inl (Return Done,
                   mkSession true (times st + 1) (monitoring st)
                     (monitorCount st) l' (S (polls st)) (waits st)).
Proof.
  intros Hok Hnew Hrun Hmon. destruct st as [r t m c l p w].
  unfold body, checkBody. simpl in *.
  destruct (forEachTask_ok self name existing (getTasks p) false
              r t m c l (S p) w Hok) as [l' Hl'].
  unfold set_polls. simpl. rewrite Hl'. rewrite Hnew. simpl.
  unfold runningAfter in Hrun. simpl in Hrun. rewrite Hrun. simpl.
  rewrite andb_false_r. rewrite Hmon. simpl.
  eexists. reflexivity.
Qed.


End Cycle.

(** ** The fallback exit *)

(** C5: on a poll cycle whose snapshot has no new task (every identifier is
    in the baseline) the monitor hands the "No tasks found during check"
    observation to the listener and returns on that cycle: nothing is
    thrown, the elapsed poll counter [times] is not incremented, and the
    one fetch of this cycle is the last. *)
Theorem no_new_tasks_ends_monitoring :
  forall fuel self getTasks name existingTasks existing st,
    (forall tsk, In tsk (getTasks (polls st)) ->
                 includes existing (ID tsk) = true) ->
    checkTasks (S fuel) self getTasks name existingTasks existing st
    = (Return NoTasks,
       mkSession (taskRunning st) (times st) (monitoring st)
         (monitorCount st)
         (emit self
            (NoTasksFound name (List.length existingTasks)
                          (List.length (getTasks (polls st))))
            (log st))
         (S (polls st)) (waits st)).
Proof.
  intros fuel self getTasks name existingTasks existing st Hall.
  simpl. unfold checkBody.
  rewrite (forEachTask_none_new self name existing (getTasks (polls st))
             false (set_polls (S (polls st)) st) Hall).
  destruct st; reflexivity.
Qed.

Lemma no_new_tasks_ends_monitoring_witness :
  checkTasks 1 defaultSelf settledOnly "svc"
    (settledOnly 0%nat) ["t1"; "t0"]
    (mkSession false 0 (VBool true) 0 [] 1 1)
  = (Return NoTasks,
     mkSession false 0 (VBool true) 0 [NoTasksFound "svc" 2 2] 2 1).
Proof.
  apply (no_new_tasks_ends_monitoring 0 defaultSelf
           settledOnly "svc" (settledOnly 0%nat) ["t1"; "t0"]
           (mkSession false 0 (VBool true) 0 [] 1 1)).
  simpl. intros tsk [H | [H | []]]; subst; reflexivity.
Defined.

(** ** Failure of a new task *)

(** C6: on any poll cycle whose snapshot holds a new task in state
    [failed] or [rejected], the monitor throws on that cycle.  The message
    is that of the first such task of the snapshot: its identifier, its
    state, and its error detail, which is the task's [Err] when the task
    has a non-empty one and [null] otherwise.  The fetch of this cycle is
    the last one, and the poll counter is not advanced. *)
Theorem failed_task_aborts_monitoring :
  forall fuel self getTasks name existingTasks existing st,
    (exists tsk, In tsk (getTasks (polls st)) /\
                 includes existing (ID tsk) = false /\
                 (State tsk = "failed" \/ State tsk = "rejected")) ->
    exists tsk st',
      find (fun t => isNew existing t && isFailure t) (getTasks (polls st))
      = Some tsk /\
      In tsk (getTasks (polls st)) /\
      includes existing (ID tsk) = false /\
      (State tsk = "failed" \/ State tsk = "rejected") /\
      checkTasks (S fuel) self getTasks name existingTasks existing st
      = (Throw (ID tsk ++ " returned status " ++ State tsk ++ " with "
                ++ match Err tsk with
                   | Some detail =>
                       if (detail =? "")%string then "null" else detail
                   | None => "null"
                   end), st') /\
      polls st' = S (polls st) /\
      times st' = times st.
Proof.
  intros fuel self getTasks name existingTasks existing st
         (tsk & Hin & Hnew & Hst).
  destruct (find (fun t => isNew existing t && isFailure t)
                 (getTasks (polls st))) as [t|] eqn:Hfind.
  - destruct (forEachTask_failure self name existing (getTasks (polls st))
                false (set_polls (S (polls st)) st) t Hfind) as [st' Hst'].
    exists t, st'. split; [reflexivity|].
    pose proof (forEachTask_frame self name existing _ _ _ _ _ _ Hst')
      as (Ht & _ & _ & Hp & _).
    destruct (find_some _ _ Hfind) as [Hint Hb].
    apply andb_true_iff in Hb. destruct Hb as [Hn Hf].
    split; [exact Hint|]. split.
    { unfold isNew in Hn. destruct (includes existing (ID t));
        [discriminate | reflexivity]. }
    split.
    { unfold isFailure in Hf. apply orb_true_iff in Hf.
      destruct Hf as [Hf | Hf]; apply String.eqb_eq in Hf;
        [left | right]; exact Hf. }
    simpl. unfold checkBody. rewrite Hst'.
    split; [reflexivity|]. split.
    + rewrite Hp. destruct st; reflexivity.
    + rewrite Ht. destruct st; reflexivity.
  - exfalso.
    pose proof (find_none _ _ Hfind tsk Hin) as Hn.
    unfold isNew, isFailure in Hn. rewrite Hnew in Hn. simpl in Hn.
    destruct Hst as [Hs | Hs]; rewrite Hs in Hn; discriminate.
Qed.

Lemma failed_task_aborts_monitoring_witness :
  exists st',
    checkTasks 1 defaultSelf rejectedAtOnce "svc"
      (rejectedAtOnce 0%nat) ["t1"]
      (mkSession false 0 (VBool false) 0 [] 1 1)
    = (Throw "t2 returned status rejected with No such image", st') /\
    polls st' = 2%nat /\
    times st' = 0.
Proof.
  destruct (failed_task_aborts_monitoring 0 defaultSelf
              rejectedAtOnce "svc" (rejectedAtOnce 0%nat) ["t1"]
              (mkSession false 0 (VBool false) 0 [] 1 1))
    as (tsk & st' & Hfind & _ & _ & _ & Hrun & Hp & Ht).
  - exists (mkTask "t2" "rejected" (Some "No such image")). simpl.
    split; [right; left; reflexivity|].
    split; [reflexivity | right; reflexivity].
  - simpl in Hfind. inversion Hfind; subst tsk. simpl in Hrun.
    exists st'. split; [exact Hrun|]. split; assumption.
Defined.

(** A failed task without error detail is reported with [null]. *)
Example failed_task_without_detail :
  fst (checkTasks 1 defaultSelf
         (fun _ => [mkTask "t9" "failed" None; mkTask "t8" "failed" (Some "")])
         "svc" [] []
         (mkSession false 0 (VBool false) 0 [] 1 1))
  = Throw "t9 returned status failed with null".
Proof. reflexivity. Qed.

(** ** Extended monitoring *)

Section Settling.

Variable self : DockerServices.
Variable getTasks : Provider.
Variable name : string.
Variable existingTasks : list Task.
Variable existing : list string.


End Settling.



(** ** Timeout *)

Section Timeout.

Variable self : DockerServices.
Variable getTasks : Provider.
Variable name : string.
Variable existingTasks : list Task.
Variable existing : list string.

Lemma unsettled_facts (st : Session) (tasks : list Task) :
  taskRunning st = false ->
  unsettled existing tasks ->
  noFailure existing tasks /\
  existsb (isNew existing) tasks = true /\
  runningAfter existing st tasks = false.
Proof.
  intros Hr [Hnew Hall]. split; [|split].
  - intros tsk Hin Hn. apply (Hall tsk Hin Hn).
  - exact Hnew.
  - unfold runningAfter. rewrite Hr. simpl. apply existsb_none.
    intros x Hx. destruct (isNew existing x) eqn:Hn; [|reflexivity].
    simpl. apply (Hall x Hx Hn).
Qed.

(** While every snapshot stays unsettled the loop goes on until the poll
    counter exceeds the budget, and throws on that cycle. *)
Lemma checkTasks_times_out :
  forall (n : nat) (st : Session) (fuel : nat),
    taskRunning st = false ->
    Z.of_nat n = maxWaitTimes self - times st ->
    (forall k, (polls st <= k)%nat -> unsettled existing (getTasks k)) ->
    (S n <= fuel)%nat ->
    exists st',
      checkTasks fuel self getTasks name existingTasks existing st
      = (Throw "service timed out", st') /\
      polls st' = (polls st + S n)%nat /\
      times st' = maxWaitTimes self + 1.
Proof.
  induction n as [|n IH]; intros st fuel Hr Hn Hp Hfuel;
    (destruct fuel as [|fuel]; [lia|]);
    destruct (unsettled_facts st (getTasks (polls st)) Hr
                (Hp (polls st) (le_n _))) as (Hok & Hnew & Hrun).
  - destruct (checkBody_timeout self getTasks name existingTasks existing
                st Hok Hnew Hrun) as [l' Hb]; [lia|].
    simpl. rewrite Hb. eexists. split; [reflexivity|]. simpl.
    split; lia.
  - destruct (checkBody_waiting self getTasks name existingTasks existing
                st Hok Hnew Hrun) as [l' Hb]; [lia|].
    simpl. rewrite Hb.
    match type of Hb with _ = inr ?s => set (st1 := s) in * end.
    destruct (IH st1 fuel) as (st' & He & Hpolls & Htimes).
    + reflexivity.
    + simpl. lia.
    + intros k Hk. apply Hp. simpl in Hk. lia.
    + lia.
    + exists st'. split; [exact He|]. simpl in Hpolls. split; [lia|exact Htimes].
Qed.

End Timeout.

(** C4 (as the code has it): with a poll budget of [maxWaitTimes] cycles,
    when every poll cycle finds a new task and no new task is running,
    failed or rejected, monitoring ends with the generic timeout failure on
    cycle [maxWaitTimes + 1], the first whose poll counter exceeds the
    budget: the 4th cycle for a budget of 3. *)
Theorem unsettled_rollout_times_out :
  forall self getTasks name monitor polls0 log0 fuel,
    0 <= maxWaitTimes self ->
    (forall k, (polls0 < k)%nat ->
               unsettled (baseline (getTasks polls0)) (getTasks k)) ->
    (Z.to_nat (maxWaitTimes self) + 1 <= fuel)%nat ->
    fst (waitUntilRunning fuel self getTasks name monitor polls0 log0)
    = Throw "service timed out" /\
    cycles polls0
      (waitUntilRunning fuel self getTasks name monitor polls0 log0)
    = (Z.to_nat (maxWaitTimes self) + 1)%nat /\
    times (snd (waitUntilRunning fuel self getTasks name monitor polls0 log0))
    = maxWaitTimes self + 1.
Proof.
  intros self getTasks name monitor polls0 log0 fuel Hm Hp Hfuel.
  unfold waitUntilRunning, cycles.
  match goal with
  | |- context [checkTasks fuel self getTasks name ?et ?ex ?s] =>
      destruct (checkTasks_times_out self getTasks name et ex
                  (Z.to_nat (maxWaitTimes self)) s fuel)
        as (st' & He & Hpolls & Htimes)
  end.
  - reflexivity.
  - simpl. lia.
  - intros k Hk. apply Hp. simpl in Hk. lia.
  - lia.
  - rewrite He. simpl in *. repeat split; [lia | exact Htimes].
Qed.

Lemma unsettled_rollout_times_out_witness :
  fst (waitUntilRunning 4 budget3 pendingForever "svc" (VBool false) 0 [])
  = Throw "service timed out" /\
  cycles 0
    (waitUntilRunning 4 budget3 pendingForever "svc" (VBool false) 0 [])
  = 4%nat /\
  times (snd (waitUntilRunning 4 budget3 pendingForever "svc" (VBool false)
                0 [])) = 4.
Proof.
  apply (unsettled_rollout_times_out budget3 pendingForever "svc"
           (VBool false) 0 [] 4).
  - vm_compute. discriminate.
  - intros k Hk. destruct k as [|k]; [lia|]. split; [reflexivity|].
    intros tsk [H | [H | []]]; subst; intros Hn;
      [discriminate Hn | split; reflexivity].
  - vm_compute. apply le_n.
Defined.

(** C4, as stated, fails: with a budget of 3 cycles and [t2] pending in
    every snapshot, monitoring is not over after the 3rd cycle; the timeout
    is thrown on the 4th. *)
Lemma timeout_counterexample :
  maxWaitTimes budget3 = 3 /\
  fst (waitUntilRunning 3 budget3 pendingForever "svc" (VBool false) 0 [])
  = OutOfFuel /\
  fst (waitUntilRunning 4 budget3 pendingForever "svc" (VBool false) 0 [])
  = Throw "service timed out" /\
  cycles 0
    (waitUntilRunning 4 budget3 pendingForever "svc" (VBool false) 0 [])
  = 4%nat /\
  ~ (exists fuel,
        fst (waitUntilRunning fuel budget3 pendingForever "svc"
               (VBool false) 0 []) = Throw "service timed out" /\
        cycles 0 (waitUntilRunning fuel budget3 pendingForever "svc"
                    (VBool false) 0 []) = 3%nat).
Proof.
  repeat (split; [reflexivity|]).
  intros [fuel [H1 H2]].
  destruct fuel as [|[|[|[|fuel]]]]; vm_compute in H1, H2; discriminate.
Qed.

(** ** Convergence without extended monitoring *)

(** C7: with [monitor = false] and a first fetch that shows the settled
    task [t1] (so that the baseline is {t1}), when cycle 1 shows the new
    task [t2] pending and cycle 2 shows it running, monitoring returns
    through "Done monitoring tasks" on cycle 2 and fetches nothing after
    it.  The budget must leave room for the pending cycle
    ([1 <= maxWaitTimes]). *)
Theorem pending_then_running_converges :
  forall self getTasks name log0 fuel s1 e1 s1' e1' s1'' e1'' e2 e2',
    1 <= maxWaitTimes self ->
    includes ["pending"; "new"] s1 = false ->
    getTasks 0%nat = [mkTask "t1" s1 e1] ->
    getTasks 1%nat = [mkTask "t1" s1' e1'; mkTask "t2" "pending" e2] ->
    getTasks 2%nat = [mkTask "t1" s1'' e1''; mkTask "t2" "running" e2'] ->
    (2 <= fuel)%nat ->
    fst (waitUntilRunning fuel self getTasks name (VBool false) 0 log0)
    = Return Done /\
    cycles 0 (waitUntilRunning fuel self getTasks name (VBool false) 0 log0)
    = 2%nat /\
    times (snd (waitUntilRunning fuel self getTasks name (VBool false) 0
                  log0)) = 2.
Proof.
  intros self getTasks name log0 fuel s1 e1 s1' e1' s1'' e1'' e2 e2'
         Hmax Hs1 H0 H1 H2 Hfuel.
  destruct fuel as [|[|fuel]]; try lia.
  unfold waitUntilRunning, cycles, baseline. rewrite H0.
  cbn [filter State]. rewrite Hs1. cbn [negb map ID].
  change (checkTasks (S (S fuel))) with
    (fun self getTasks name existingTasks existing st =>
       match checkBody self getTasks name existingTasks existing st with
       | inl r => r
       | inr st' =>
           match checkBody self getTasks name existingTasks existing st'
           with
           | inl r => r
           | inr st'' =>
               checkTasks fuel self getTasks name existingTasks existing
                          st''
           end
       end).
  cbv beta. unfold checkBody. cbn [polls]. rewrite H1.
  simpl. replace (1 >? maxWaitTimes self) with false
    by (symmetry; rewrite Z.gtb_ltb; apply Z.ltb_ge; lia).
  simpl. rewrite H2. simpl.
  rewrite andb_false_r. simpl. repeat split.
Qed.

Lemma pending_then_running_converges_witness :
  fst (waitUntilRunning 2 defaultSelf pendingThenRunning "svc" (VBool false)
         0 []) = Return Done /\
  cycles 0 (waitUntilRunning 2 defaultSelf pendingThenRunning "svc"
              (VBool false) 0 []) = 2%nat /\
  times (snd (waitUntilRunning 2 defaultSelf pendingThenRunning "svc"
                (VBool false) 0 [])) = 2.
Proof.
  apply (pending_then_running_converges defaultSelf pendingThenRunning
           "svc" [] 2
           "running" None "running" None "running" None None None).
  - vm_compute. discriminate.
  - reflexivity.
  - reflexivity.
  - reflexivity.
  - reflexivity.
  - lia.
Defined.

(** ** The loop always ends *)

Section Termination.

Variable self : DockerServices.
Variable getTasks : Provider.
Variable name : string.
Variable existingTasks : list Task.
Variable existing : list string.

Lemma checkBody_never_out_of_fuel (st : Session) (o : Outcome)
  (st' : Session) :
  checkBody self getTasks name existingTasks existing st = inl (o, st') ->
  o <> OutOfFuel.
Proof.
  unfold checkBody.
  destruct (forEachTask self name existing (getTasks (polls st)) false
              (set_polls (S (polls st)) st)) as [[[msg|] [|]] s1];
    try (intros H; inversion H; discriminate).
  destruct ((times (set_times (times s1 + 1) s1) >? maxWaitTimes self)
            && negb (taskRunning (set_times (times s1 + 1) s1)));
    [intros H; inversion H; discriminate|].
  destruct (taskRunning (set_times (times s1 + 1) s1)
            && negb (truthy (monitoring (set_times (times s1 + 1) s1))));
    intros H; inversion H; discriminate.
Qed.

(** A cycle that goes on to poll again uses up one of the cycles left. *)
Lemma checkBody_decreases (st st' : Session) :
  checkBody self getTasks name existingTasks existing st = inr st' ->
  (cyclesLeft self st' < cyclesLeft self st)%nat.
Proof.
  unfold checkBody.
  destruct (forEachTask self name existing (getTasks (polls st)) false
              (set_polls (S (polls st)) st)) as [[o f] s1] eqn:E.
  apply forEachTask_frame in E.
  destruct E as (Ht & Hm & Hc & _ & _ & Hr).
  destruct st as [r t m c l p w]. destruct s1 as [r1 t1 m1 c1 l1 p1 w1].
  simpl in *. subst t1 m1 c1.
  destruct o; [discriminate|]. destruct f; [|discriminate].
  unfold set_times; simpl.
  destruct (Z.gtb_spec (t + 1) (maxWaitTimes self)) as [Hgt | Hle];
    destruct r1; simpl; try discriminate.
  - destruct (truthy m) eqn:Hm; simpl; [|discriminate].
    intros H; inversion H; subst; clear H. unfold cyclesLeft; simpl.
    destruct (Z.geb_spec (c + 1) (self_monitorCount self));
      simpl; rewrite ?Hm; destruct r; lia.
  - destruct (truthy m) eqn:Hm; simpl; [|discriminate].
    intros H; inversion H; subst; clear H. unfold cyclesLeft; simpl.
    destruct (Z.geb_spec (c + 1) (self_monitorCount self));
      simpl; rewrite ?Hm; destruct r; lia.
  - intros H; inversion H; subst; clear H. unfold cyclesLeft; simpl.
    destruct r; [specialize (Hr eq_refl); discriminate|].
    destruct (truthy m); lia.
Qed.

Lemma checkTasks_terminates :
  forall fuel st,
    (cyclesLeft self st < fuel)%nat ->
    fst (checkTasks fuel self getTasks name existingTasks existing st)
    <> OutOfFuel.
Proof.
  induction fuel as [|fuel IH]; intros st Hlt; [lia|].
  simpl.
  destruct (checkBody self getTasks name existingTasks existing st)
    as [[o s]|s] eqn:E.
  - simpl. exact (checkBody_never_out_of_fuel st o s E).
  - apply IH. apply checkBody_decreases in E. lia.
Qed.

(** Once the loop has ended, cycles allowed beyond that change nothing. *)
Lemma checkTasks_fuel_stable :
  forall fuel st extra,
    fst (checkTasks fuel self getTasks name existingTasks existing st)
    <> OutOfFuel ->
    checkTasks (fuel + extra) self getTasks name existingTasks existing st
    = checkTasks fuel self getTasks name existingTasks existing st.
Proof.
  induction fuel as [|fuel IH]; intros st extra H.
  - simpl in H. contradiction.
  - simpl in *.
    destruct (checkBody self getTasks name existingTasks existing st)
      as [r|s]; [reflexivity|].
    apply IH. exact H.
Qed.

End Termination.

(** X2: Every call of [waitUntilRunning] ends, by one of its returns or one of
    its throws, within the poll budget plus the extra cycles. *)
Theorem waitUntilRunning_terminates :
  forall self getTasks name monitor polls0 log0 fuel,
    (Z.to_nat (maxWaitTimes self) + Z.to_nat (self_monitorCount self) + 1
     < fuel)%nat ->
    fst (waitUntilRunning fuel self getTasks name monitor polls0 log0)
    <> OutOfFuel.
Proof.
  intros self getTasks name monitor polls0 log0 fuel Hfuel.
  unfold waitUntilRunning. apply checkTasks_terminates.
  unfold cyclesLeft. simpl. rewrite !Z.sub_0_r.
  destruct (truthy monitor); lia.
Qed.

(** ** What the second argument of [waitUntilRunning] is used for *)

Section Agree.

Variable self : DockerServices.
Variable getTasks : Provider.
Variable name : string.
Variable existingTasks : list Task.
Variable existing : list string.

(** The scan never looks at [monitoring]. *)
Lemma forEachTask_agree (tasks : list Task) :
  forall found r t m m' c l p w,
    exists r' l',
      forEachTask self name existing tasks found
        (mkSession r t m c l p w)
      = (fst (fst (forEachTask self name existing tasks found
                     (mkSession r t m' c l p w))),
         snd (fst (forEachTask self name existing tasks found
                     (mkSession r t m' c l p w))),
         mkSession r' t m c l' p w) /\
      snd (forEachTask self name existing tasks found
             (mkSession r t m' c l p w))
      = mkSession r' t m' c l' p w.
Proof.
  induction tasks as [|tsk rest IH]; intros found r t m m' c l p w.
  - simpl. exists r, l. split; reflexivity.
  - simpl. destruct (negb (includes existing (ID tsk))).
    + destruct (isFailure tsk).
      * simpl. eexists _, _. split; reflexivity.
      * unfold emitS, set_log, set_taskRunning. simpl.
        destruct (State tsk =? "running")%string; destruct r; simpl;
          apply IH.
    + apply IH.
Qed.

Lemma checkBody_agree (a b : Session) :
  agree a b ->
  match checkBody self getTasks name existingTasks existing a,
        checkBody self getTasks name existingTasks existing b with
  | inl (o, a'), inl (o', b') => o = o' /\ agree a' b'
  | inr a', inr b' => agree a' b'
  | _, _ => False
  end.
Proof.
  destruct a as [r t m c l p w]. destruct b as [r2 t2 m' c2 l2 p2 w2].
  intros (H1 & H2 & H3 & H4 & H5 & H6 & H7). simpl in *. subst.
  unfold checkBody, set_polls. simpl.
  destruct (forEachTask_agree (getTasks p2) false r2 t2 m m' c2 l2
              (S p2) w2) as (r' & l' & Ha & Hb).
  rewrite Ha.
  destruct (forEachTask self name existing (getTasks p2) false
              (mkSession r2 t2 m' c2 l2 (S p2) w2)) as [[o f] s1].
  simpl in *. subst s1.
  destruct o; [split; [reflexivity|repeat split; assumption]|].
  destruct f; [|split; [reflexivity|repeat split; assumption]].
  unfold set_times. simpl.
  destruct ((t2 + 1 >? maxWaitTimes self) && negb r');
    [split; [reflexivity|repeat split; assumption]|].
  rewrite H7.
  destruct (r' && negb (truthy m'));
    [split; [reflexivity|repeat split; assumption]|].
  destruct (r' && truthy m'); simpl;
    [destruct (c2 + 1 >=? self_monitorCount self)|];
    simpl; repeat split; assumption.
Qed.

Lemma checkTasks_agree :
  forall fuel a b,
    agree a b ->
    fst (checkTasks fuel self getTasks name existingTasks existing a)
    = fst (checkTasks fuel self getTasks name existingTasks existing b) /\
    agree (snd (checkTasks fuel self getTasks name existingTasks existing a))
          (snd (checkTasks fuel self getTasks name existingTasks existing b)).
Proof.
  induction fuel as [|fuel IH]; intros a b Hab.
  - simpl. split; [reflexivity|exact Hab].
  - simpl. pose proof (checkBody_agree a b Hab) as H.
    destruct (checkBody self getTasks name existingTasks existing a)
      as [[o a']|a'];
      destruct (checkBody self getTasks name existingTasks existing b)
        as [[o' b']|b']; try contradiction.
    + destruct H as [Ho Hs]. simpl. split; assumption.
    + apply IH. exact H.
Qed.

End Agree.

(** X10: A list of task identifiers passed as the second argument acts as
    [true]: it switches extended monitoring on and has no other effect.
    The baseline is computed from the call's own first fetch whatever is
    passed. *)
Theorem waitUntilRunning_ids_act_as_true :
  forall self getTasks name ids polls0 log0 fuel,
    fst (waitUntilRunning fuel self getTasks name (VArr ids) polls0 log0)
    = fst (waitUntilRunning fuel self getTasks name (VBool true) polls0 log0)
    /\
    agree
      (snd (waitUntilRunning fuel self getTasks name (VArr ids) polls0 log0))
      (snd (waitUntilRunning fuel self getTasks name (VBool true) polls0
              log0)).
Proof.
  intros. unfold waitUntilRunning. apply checkTasks_agree.
  repeat split.
Qed.

(** * Properties of the spec merger *)

Lemma beforeAt_idempotent (s : string) : beforeAt (beforeAt s) = beforeAt s.
Proof.
  induction s as [|c s IH]; simpl.
  - reflexivity.
  - destruct (Ascii.eqb c "@"%char) eqn:E; simpl.
    + reflexivity.
    + rewrite E, IH. reflexivity.
Qed.

Lemma andThen_keepsMode (a b : Step) :
  keepsMode a -> keepsMode b -> keepsMode (a ;; b).
Proof.
  intros Ha Hb s. unfold andThen.
  specialize (Ha s). destruct (a s) as [s' [e|]]; simpl in *.
  - exact Ha.
  - rewrite Hb. exact Ha.
Qed.

Lemma andThen_throwsTypeErrorOnly (a b : Step) :
  throwsTypeErrorOnly a -> throwsTypeErrorOnly b ->
  throwsTypeErrorOnly (a ;; b).
Proof.
  intros Ha Hb s e. unfold andThen.
  specialize (Ha s). destruct (a s) as [s' [e'|]]; simpl in *.
  - intros H. apply Ha. exact H.
  - apply Hb.
Qed.

Section Steps.

Variable L : Deps.
Variable options : Obj.

Lemma validateStep_keepsMode : keepsMode (validateStep L options).
Proof. intros s. reflexivity. Qed.

Lemma imageStep_keepsMode : keepsMode (imageStep options).
Proof.
  intros s. unfold imageStep.
  destruct (truthy (getProp "image" options)); reflexivity.
Qed.

Lemma envStep_keepsMode : keepsMode (envStep L options).
Proof.
  intros s. unfold envStep.
  destruct (truthy (jsOr (getProp "env" options)
                         (getProp "envRemove" options))); [|reflexivity].
  destruct (removeKeys L (getProp "envRemove" options) _); reflexivity.
Qed.

Lemma labelsStep_keepsMode : keepsMode (labelsStep L options).
Proof.
  intros s. unfold labelsStep.
  destruct (truthy (jsOr (getProp "labels" options)
                         (getProp "labelRemove" options))); [|reflexivity].
  destruct (removeKeys L (getProp "labelRemove" options) _); reflexivity.
Qed.

Lemma forceStep_keepsMode : keepsMode (forceStep options).
Proof.
  intros s. unfold forceStep.
  destruct (truthy (getProp "force" options)); [|reflexivity].
  simpl. destruct (Image (ContainerSpec (TaskTemplate s))); reflexivity.
Qed.

Lemma replicasStep_falsy_keepsMode :
  truthy (getProp "replicas" options) = false ->
  keepsMode (replicasStep options).
Proof.
  intros H s. unfold replicasStep. rewrite H. reflexivity.
Qed.

Lemma removeKeys_error (keys : JsVal) (merged : Obj) (e : Error) :
  removeKeys L keys merged = inl e -> exists what, e = TypeError what.
Proof.
  unfold removeKeys. destruct (truthy keys); [|discriminate].
  destruct keys; intros H; inversion H; eexists; reflexivity.
Qed.

Lemma imageStep_throws : throwsTypeErrorOnly (imageStep options).
Proof.
  intros s e. unfold imageStep.
  destruct (truthy (getProp "image" options)); discriminate.
Qed.

Lemma envStep_throws : throwsTypeErrorOnly (envStep L options).
Proof.
  intros s e. unfold envStep.
  destruct (truthy (jsOr (getProp "env" options)
                         (getProp "envRemove" options))); [|discriminate].
  destruct (removeKeys L (getProp "envRemove" options) _) eqn:E;
    [|discriminate].
  simpl. intros H. inversion H; subst. exact (removeKeys_error _ _ _ E).
Qed.

Lemma labelsStep_throws : throwsTypeErrorOnly (labelsStep L options).
Proof.
  intros s e. unfold labelsStep.
  destruct (truthy (jsOr (getProp "labels" options)
                         (getProp "labelRemove" options))); [|discriminate].
  destruct (removeKeys L (getProp "labelRemove" options) _) eqn:E;
    [|discriminate].
  simpl. intros H. inversion H; subst. exact (removeKeys_error _ _ _ E).
Qed.

Lemma replicasStep_throws : throwsTypeErrorOnly (replicasStep options).
Proof.
  intros s e. unfold replicasStep.
  destruct (truthy (getProp "replicas" options)); discriminate.
Qed.

Lemma forceStep_throws : throwsTypeErrorOnly (forceStep options).
Proof.
  intros s e. unfold forceStep.
  destruct (truthy (getProp "force" options)); [|discriminate].
  simpl. destruct (Image (ContainerSpec (TaskTemplate s)));
    simpl; intros H; inversion H; eexists; reflexivity.
Qed.

(** What [validate] reports is a [ValidationError], and it reports one
    exactly when a defined key of the schema is refused by its type or a
    key of [options] is not in the schema. *)
Lemma validate_error (e : Error) :
  validate L options = Some e -> exists k why, e = ValidationError k why.
Proof.
  unfold validate.
  destruct (find _ schema) as [[k t]|].
  - intros H. inversion H. eexists _, _. reflexivity.
  - destruct (find _ options) as [[k v]|]; intros H; inversion H.
    eexists _, _. reflexivity.
Qed.

Lemma validate_fails_iff :
  validate L options <> None <->
  (exists k t, In (k, t) schema /\ getProp k options <> VUndef /\
               joi L t (getProp k options) = false) \/
  (exists k v, In (k, v) options /\ known k = false).
Proof.
  unfold validate. split.
  - destruct (find _ schema) as [[k t]|] eqn:E1.
    + intros _. left. apply find_some in E1. destruct E1 as [Hin Hb].
      simpl in Hb. apply andb_true_iff in Hb. destruct Hb as [Hu Hj].
      exists k, t. split; [exact Hin|]. split.
      * intros Hv. rewrite Hv in Hu. discriminate.
      * destruct (joi L t (getProp k options)); [discriminate|reflexivity].
    + destruct (find _ options) as [[k v]|] eqn:E2.
      * intros _. right. apply find_some in E2. destruct E2 as [Hin Hb].
        simpl in Hb. exists k, v. split; [exact Hin|].
        destruct (known k); [discriminate|reflexivity].
      * intros H. contradiction.
  - intros [(k & t & Hin & Hv & Hj) | (k & v & Hin & Hk)].
    + destruct (find _ schema) as [[k' t']|] eqn:E1; [discriminate|].
      pose proof (find_none _ _ E1 (k, t) Hin) as Hn. simpl in Hn.
      rewrite Hj in Hn. destruct (getProp k options); try discriminate.
      contradiction.
    + destruct (find _ schema) as [[k' t']|]; [discriminate|].
      destruct (find _ options) as [[k' v']|] eqn:E2; [discriminate|].
      pose proof (find_none _ _ E2 (k, v) Hin) as Hn. simpl in Hn.
      rewrite Hk in Hn. discriminate.
Qed.

(** [adjustSpec] throws a [ValidationError] exactly when [validate]
    reports one, and then the spec has not been touched. *)
Lemma adjustSpec_validation (spec : ServiceSpec) (k : string)
  (why : Reason) :
  snd (adjustSpec L spec options) = Some (ValidationError k why) <->
  validate L options = Some (ValidationError k why).
Proof.
  unfold adjustSpec. unfold andThen at 1. unfold validateStep at 1.
  destruct (validate L options) as [e|] eqn:E.
  - simpl. reflexivity.
  - split; [|discriminate]. intros H. exfalso.
    assert (Ht : throwsTypeErrorOnly
                   (imageStep options ;; envStep L options ;;
                    labelsStep L options ;; replicasStep options ;;
                    forceStep options)).
    { repeat apply andThen_throwsTypeErrorOnly;
        auto using imageStep_throws, envStep_throws, labelsStep_throws,
                   replicasStep_throws, forceStep_throws. }
    destruct (Ht spec _ H) as [what Hw]. discriminate.
Qed.

Lemma adjustSpec_invalid_untouched (spec : ServiceSpec) (e : Error) :
  validate L options = Some e ->
  adjustSpec L spec options = (spec, Some e).
Proof.
  intros H. unfold adjustSpec. unfold andThen at 1.
  unfold validateStep at 1. rewrite H. reflexivity.
Qed.

End Steps.

(** ** Validation *)

(** C3 (as the code has it): [adjustSpec] throws a [ValidationError]
    exactly when some defined field of the schema is refused by its Joi
    type or [options] has a field outside the schema: unknown fields are
    rejected, not ignored.  The error is thrown before the spec is touched;
    [adjustSpec] calls no orchestrator, and within [adjust] the error comes
    after the two reads (task list and inspect) and before any update is
    submitted. *)
Theorem validation_error_iff :
  forall L spec options,
    ((exists k why,
        snd (adjustSpec L spec options) = Some (ValidationError k why)) <->
     ((exists k t, In (k, t) schema /\ getProp k options <> VUndef /\
                   joi L t (getProp k options) = false) \/
      (exists k v, In (k, v) options /\ known k = false))) /\
    (forall k why,
        snd (adjustSpec L spec options) = Some (ValidationError k why) ->
        fst (adjustSpec L spec options) = spec) /\
    (forall fuel self orch name k why,
        Spec (inspect orch) = spec ->
        snd (adjustSpec L (set_version (VersionIndex (inspect orch)) spec)
                        options)
        = Some (ValidationError k why) ->
        adjust fuel self L orch name options
        = mkRun [ListTasksCall name; InspectCall name]
                (inl (ValidationError k why))).
Proof.
  intros L spec options. split; [|split].
  - rewrite <- validate_fails_iff. split.
    + intros (k & why & H). apply adjustSpec_validation in H.
      rewrite H. discriminate.
    + intros H. destruct (validate L options) as [e|] eqn:E;
        [|contradiction].
      destruct (validate_error L options e E) as (k & why & He). subst e.
      exists k, why. apply adjustSpec_validation. exact E.
  - intros k why H. apply adjustSpec_validation in H.
    rewrite (adjustSpec_invalid_untouched L options spec _ H). reflexivity.
  - intros fuel self orch name k why Hs H. subst spec.
    apply adjustSpec_validation in H. unfold adjust.
    rewrite (adjustSpec_invalid_untouched L options _ _ H). reflexivity.
Qed.

Lemma validation_error_iff_witness :
  adjust 3 defaultSelf refDeps replacementFailedEarly "svc-x"
    [("replicas", VStr "many")]
  = mkRun [ListTasksCall "svc-x"; InspectCall "svc-x"]
          (inl (ValidationError "replicas" (MustBe JoiNumber))).
Proof.
  destruct (validation_error_iff refDeps exampleSpec
              [("replicas", VStr "many")]) as (_ & _ & H).
  apply (H 3%nat defaultSelf replacementFailedEarly "svc-x");
    reflexivity.
Defined.

(** C3, as stated, fails: an options object with only an unknown field is
    rejected. *)
Lemma unknown_field_counterexample :
  forallb (fun kv => negb (known (fst kv))) [("foo", VNum 1)] = true /\
  adjustSpec refDeps exampleSpec [("foo", VNum 1)]
  = (exampleSpec, Some (ValidationError "foo" NotAllowed)).
Proof. split; reflexivity. Qed.

(** ** Merging *)

(** C9: merging the empty options object succeeds and returns the spec as
    it was given. *)
Theorem merge_empty_options :
  forall L spec, adjustSpec L spec [] = (spec, None).
Proof. intros L spec. reflexivity. Qed.

(** The environment example: [env = {A: "1"}] and [envRemove = ["B"]]
    against the environment [["A=0", "B=2"]] leave [["A=1"]]. *)
Example env_merge_example :
  Env (ContainerSpec (TaskTemplate (fst
    (adjustSpec refDeps exampleSpec
       [("env", VObj [("A", VStr "1")]); ("envRemove", VArr [VStr "B"])]))))
  = VArr [VStr "A=1"].
Proof. reflexivity. Qed.

(** Within 2^53 in magnitude a sum of integers is exact. *)
Lemma jsAdd_exact (a b : Z) :
  Z.abs (a + b) <= 2 ^ 53 -> jsAdd a b = a + b.
Proof.
  intros H. unfold jsAdd, roundToDouble.
  destruct (Z.leb_spec (Z.abs (a + b)) (2 ^ 53)); [reflexivity | lia].
Qed.

(** C8 (as the code has it): applying [adjustSpec] with [{force: true}]
    twice to the same spec object succeeds twice; the first application
    cuts the image reference at its first [@] and the second leaves the
    image as the first left it; and the force-update counter is raised by
    2 in total (an absent counter counting as 0) as long as the counter
    stays within the integers a JavaScript number holds exactly, that is
    from -2^53 up to a final value of 2^53. *)
Theorem force_twice_within_exact_integers :
  forall L spec image,
    joi L JoiBoolean (VBool true) = true ->
    Image (ContainerSpec (TaskTemplate spec)) = VStr image ->
    exists s1 s2,
      adjustSpec L spec [("force", VBool true)] = (s1, None) /\
      adjustSpec L s1 [("force", VBool true)] = (s2, None) /\
      Image (ContainerSpec (TaskTemplate s1)) = VStr (beforeAt image) /\
      Image (ContainerSpec (TaskTemplate s2))
      = Image (ContainerSpec (TaskTemplate s1)) /\
      (- 2 ^ 53 <= orDefault (ForceUpdate (TaskTemplate spec)) 0 ->
       orDefault (ForceUpdate (TaskTemplate spec)) 0 + 2 <= 2 ^ 53 ->
       ForceUpdate (TaskTemplate s1)
       = Some (orDefault (ForceUpdate (TaskTemplate spec)) 0 + 1) /\
       ForceUpdate (TaskTemplate s2)
       = Some (orDefault (ForceUpdate (TaskTemplate spec)) 0 + 2) /\
       s2 = set_ForceUpdate
              (orDefault (ForceUpdate (TaskTemplate spec)) 0 + 2) s1).
Proof.
  intros L spec image Hjoi Himg.
  destruct spec as [n v [[img env lbl csr] fu ttr] mode rest].
  simpl in Himg. subst img.
  unfold adjustSpec, andThen, validateStep, validate. simpl.
  rewrite Hjoi. simpl.
  eexists _, _. split; [reflexivity|].
  unfold forceStep, set_ForceUpdate, set_Image. simpl.
  rewrite beforeAt_idempotent.
  split; [reflexivity|]. split; [reflexivity|]. split; [reflexivity|].
  intros Hlo Hhi.
  assert (H1 : jsAdd (orDefault fu 0) 1 = orDefault fu 0 + 1)
    by (apply jsAdd_exact; lia).
  rewrite H1.
  assert (H2 : jsAdd (if orDefault fu 0 + 1 =? 0
                      then 0 else orDefault fu 0 + 1) 1
               = orDefault fu 0 + 2).
  { destruct (Z.eqb_spec (orDefault fu 0 + 1) 0) as [E | E].
    - rewrite jsAdd_exact by lia. lia.
    - rewrite jsAdd_exact by lia. lia. }
  rewrite H2. repeat split.
Qed.

Lemma force_twice_within_exact_integers_witness :
  exists s1 s2,
    adjustSpec refDeps exampleSpec [("force", VBool true)] = (s1, None) /\
    adjustSpec refDeps s1 [("force", VBool true)] = (s2, None) /\
    Image (ContainerSpec (TaskTemplate s1)) = VStr "app:1" /\
    Image (ContainerSpec (TaskTemplate s2))
    = Image (ContainerSpec (TaskTemplate s1)) /\
    ForceUpdate (TaskTemplate s1) = Some 1 /\
    ForceUpdate (TaskTemplate s2) = Some 2 /\
    s2 = set_ForceUpdate 2 s1.
Proof.
  destruct (force_twice_within_exact_integers refDeps exampleSpec
              "app:1@sha256:0123abcd" eq_refl eq_refl)
    as (s1 & s2 & E1 & E2 & I1 & I2 & Hc).
  exists s1, s2.
  split; [exact E1|]. split; [exact E2|]. split; [exact I1|].
  split; [exact I2|].
  apply Hc; vm_compute; discriminate.
Defined.

(** C8, as stated, fails: on a service whose counter is 2^53, two forced
    updates succeed and leave the counter at 2^53, not 2 higher: adding 1
    to 2^53 gives 2^53 again in JavaScript's numbers. *)
Lemma force_twice_counterexample :
  exists s1 s2,
    adjustSpec refDeps counterAtLimit [("force", VBool true)] = (s1, None) /\
    adjustSpec refDeps s1 [("force", VBool true)] = (s2, None) /\
    ForceUpdate (TaskTemplate counterAtLimit) = Some (2 ^ 53) /\
    ForceUpdate (TaskTemplate s2) = Some (2 ^ 53) /\
    ForceUpdate (TaskTemplate s2) <> Some (2 ^ 53 + 2).
Proof.
  eexists _, _. split; [vm_compute; reflexivity|].
  split; [vm_compute; reflexivity|].
  split; [reflexivity|]. split; [vm_compute; reflexivity|].
  vm_compute. discriminate.
Qed.

(** C10: with [options.replicas] equal to 0 the replicas branch is skipped
    and [adjustSpec] leaves [spec.Mode], hence the replica count, as it
    was; so the spec that [scale (name, 0)] submits carries the replica
    count the service already had. *)
Theorem replicas_zero_keeps_mode :
  forall L spec options,
    getProp "replicas" options = VNum 0 ->
    Mode (fst (adjustSpec L spec options)) = Mode spec /\
    (forall fuel self orch name n s,
        Spec (inspect orch) = spec ->
        In (UpdateCall n s) (net (scale fuel self L orch name (VNum 0))) ->
        Mode s = Mode spec).
Proof.
  intros L spec options Hz.
  assert (Hk : forall o, getProp "replicas" o = VNum 0 ->
                         keepsMode (fun s => adjustSpec L s o)).
  { intros o Ho. unfold adjustSpec.
    repeat apply andThen_keepsMode;
      auto using validateStep_keepsMode, imageStep_keepsMode,
                 envStep_keepsMode, labelsStep_keepsMode,
                 forceStep_keepsMode.
    apply replicasStep_falsy_keepsMode. rewrite Ho. reflexivity. }
  split; [exact (Hk options Hz spec)|].
  intros fuel self orch name n s Hs Hin. subst spec.
  unfold scale, adjust in Hin.
  pose proof (Hk [("replicas", VNum 0)] eq_refl
                (set_version (VersionIndex (inspect orch))
                             (Spec (inspect orch)))) as Hm.
  destruct (adjustSpec L
              (set_version (VersionIndex (inspect orch))
                           (Spec (inspect orch)))
              [("replicas", VNum 0)]) as [newSpec [e|]]; simpl in Hin.
  - destruct Hin as [H | [H | []]]; discriminate.
  - destruct Hin as [H | [H | [H | []]]]; try discriminate.
    inversion H; subst. simpl in Hm. exact Hm.
Qed.

Lemma replicas_zero_keeps_mode_witness :
  Mode (fst (adjustSpec refDeps exampleSpec
               [("image", VStr "app:2"); ("replicas", VNum 0)]))
  = Some (mkMode (Some (mkReplicated (VNum 3) [])) []) /\
  net (scale 3 defaultSelf refDeps replacementFailedEarly "svc-x" (VNum 0))
  = [ListTasksCall "svc-x"; InspectCall "svc-x";
     UpdateCall "svc-x" (set_version 7 exampleSpec)].
Proof.
  split.
  - apply (replicas_zero_keeps_mode refDeps exampleSpec
             [("image", VStr "app:2"); ("replicas", VNum 0)] eq_refl).
  - reflexivity.
Defined.

(** ** The baseline used by [adjust] *)

(** C1 on the code: [adjust] passes the identifiers of the tasks it
    fetched before the update, but [waitUntilRunning] takes them for its
    [monitor] flag and computes the baseline from its own fetch.  In the
    first run [t2] is not among the identifiers supplied ([t1] alone) and
    has failed, yet it lands in the recomputed baseline and the call
    returns without a failure.  In the second run [t1] is among the
    identifiers supplied, yet it is not in the recomputed baseline and its
    rejection ends monitoring. *)
Theorem adjust_baseline_is_recomputed :
  (map ID (listTasks replacementFailedEarly 0%nat) = ["t1"] /\
   exists st newSpec,
     result (adjust 5 defaultSelf refDeps replacementFailedEarly "svc-x"
               [("force", VBool true)])
     = inr (Return NoTasks, st, newSpec) /\
     polls st = 3%nat) /\
  (map ID (listTasks pendingBeforeUpdate 0%nat) = ["t1"] /\
   exists st newSpec,
     result (adjust 5 defaultSelf refDeps pendingBeforeUpdate "svc-x"
               [("force", VBool true)])
     = inr (Throw "t1 returned status rejected with null", st, newSpec)).
Proof.
  split; (split; [reflexivity|]); eexists _, _.
  - split; reflexivity.
  - reflexivity.
Qed.

(** * Further properties of the convergence monitor *)

Section Invariants.

Variable self : DockerServices.
Variable getTasks : Provider.
Variable name : string.
Variable existingTasks : list Task.
Variable existing : list string.

(** [taskRunning] is only ever raised by a new task in state [running]. *)
Lemma forEachTask_running_origin (tasks : list Task) :
  forall found st o f st',
    forEachTask self name existing tasks found st = (o, f, st') ->
    taskRunning st' = true ->
    taskRunning st = true \/
    exists tsk, In tsk tasks /\ isNew existing tsk = true /\
                isRunning tsk = true.
Proof.
  induction tasks as [|t rest IH]; intros found st o f st' H Hr;
    simpl in H.
  - inversion H; subst. left. exact Hr.
  - destruct (negb (includes existing (ID t))) eqn:N.
    + destruct (isFailure t).
      * inversion H; subst. left. exact Hr.
      * destruct (State t =? "running")%string eqn:R.
        -- right. exists t. split; [left; reflexivity|].
           split; [exact N | exact R].
        -- destruct (IH _ _ _ _ _ H Hr) as [H1 | (x & Hx & Hn & Hx')].
           ++ left. exact H1.
           ++ right. exists x. split; [right; exact Hx|]. split; assumption.
    + destruct (IH _ _ _ _ _ H Hr) as [H1 | (x & Hx & Hn & Hx')].
      * left. exact H1.
      * right. exists x. split; [right; exact Hx|]. split; assumption.
Qed.

(** What the scan throws is the message of a new failed or rejected task
    of the snapshot. *)
Lemma forEachTask_throw_origin (tasks : list Task) :
  forall found st msg f st',
    forEachTask self name existing tasks found st = (Some msg, f, st') ->
    exists tsk, In tsk tasks /\ isNew existing tsk = true /\
                isFailure tsk = true /\ msg = failureMessage tsk.
Proof.
  induction tasks as [|t rest IH]; intros found st msg f st' H;
    simpl in H.
  - discriminate.
  - destruct (negb (includes existing (ID t))) eqn:N.
    + destruct (isFailure t) eqn:F.
      * inversion H; subst. exists t.
        split; [left; reflexivity|]. repeat split; assumption.
      * destruct (IH _ _ _ _ _ H) as (x & Hx & Hrest).
        exists x. split; [right; exact Hx | exact Hrest].
    + destruct (IH _ _ _ _ _ H) as (x & Hx & Hrest).
      exists x. split; [right; exact Hx | exact Hrest].
Qed.

(** Without a listener the scan leaves no trace. *)
Lemma forEachTask_silent (tasks : list Task) :
  listener self = false ->
  forall found st o f st',
    forEachTask self name existing tasks found st = (o, f, st') ->
    log st' = log st.
Proof.
  intros Hl. induction tasks as [|t rest IH]; intros found st o f st' H;
    simpl in H.
  - inversion H; subst. reflexivity.
  - destruct (negb (includes existing (ID t))).
    + destruct (isFailure t).
      * inversion H; subst. simpl. unfold emit. rewrite Hl. reflexivity.
      * apply IH in H. rewrite H. destruct st as [r tm m c l p w].
        destruct (State t =? "running")%string; destruct r; simpl;
          unfold emit; rewrite Hl; reflexivity.
    + apply IH in H. exact H.
Qed.

(** Pre-existing tasks do not take part in the scan. *)
Lemma forEachTask_filter (tasks : list Task) :
  forall found st,
    forEachTask self name existing tasks found st
    = forEachTask self name existing (filter (isNew existing) tasks)
                  found st.
Proof.
  induction tasks as [|t rest IH]; intros found st; simpl.
  - reflexivity.
  - unfold isNew at 1.
    destruct (negb (includes existing (ID t))) eqn:N; simpl.
    + rewrite N. destruct (isFailure t); [reflexivity|]. apply IH.
    + apply IH.
Qed.

(** What one cycle does to the session, whichever way it ends. *)
Lemma checkBody_facts (st : Session) :
  match checkBody self getTasks name existingTasks existing st with
  | inl (o, s') =>
      polls s' = S (polls st) /\ waits s' = waits st /\
      (listener self = false -> log s' = log st) /\
      (taskRunning s' = true ->
       taskRunning st = true \/
       exists tsk, In tsk (getTasks (polls st)) /\
                   isNew existing tsk = true /\ isRunning tsk = true) /\
      (o = Return Done ->
       taskRunning s' = true /\ truthy (monitoring s') = false) /\
      (forall msg, o = Throw msg ->
         (msg = "service timed out" /\ taskRunning s' = false /\
          maxWaitTimes self < times s') \/
         (exists tsk, In tsk (getTasks (polls st)) /\
                      isNew existing tsk = true /\
                      isFailure tsk = true /\ msg = failureMessage tsk))
  | inr s' =>
      polls s' = S (polls st) /\ waits s' = S (waits st) /\
      (listener self = false -> log s' = log st) /\
      (taskRunning s' = true ->
       taskRunning st = true \/
       exists tsk, In tsk (getTasks (polls st)) /\
                   isNew existing tsk = true /\ isRunning tsk = true)
  end.
Proof.
  unfold checkBody.
  destruct (forEachTask self name existing (getTasks (polls st)) false
              (set_polls (S (polls st)) st)) as [[o f] s1] eqn:E.
  pose proof (forEachTask_frame self name existing _ _ _ _ _ _ E)
    as (Ht & Hm & Hc & Hp & Hw & _).
  pose proof (forEachTask_running_origin _ _ _ _ _ _ E) as Hro.
  assert (Hsil : listener self = false -> log s1 = log st).
  { intros Hl.
    rewrite (forEachTask_silent _ Hl _ _ _ _ _ E). destruct st; reflexivity. }
  assert (Hthrow : forall msg, o = Some msg ->
            exists tsk, In tsk (getTasks (polls st)) /\
                        isNew existing tsk = true /\
                        isFailure tsk = true /\ msg = failureMessage tsk).
  { intros msg Ho. subst o. exact (forEachTask_throw_origin _ _ _ _ _ _ E). }
  clear E.
  destruct st as [r t m c l p w]. destruct s1 as [r1 t1 m1 c1 l1 p1 w1].
  simpl in *. subst t1 m1 c1 p1 w1.
  assert (Hemit : forall ev, listener self = false -> emit self ev l1 = l)
    by (intros ev Hl; unfold emit; rewrite Hl; auto).
  destruct o as [msg0|]; [|destruct f].
  - repeat split; auto; try discriminate.
    intros msg Hx. inversion Hx; subst. right. apply Hthrow. reflexivity.
  - unfold set_times. simpl.
    destruct (Z.gtb_spec (t + 1) (maxWaitTimes self)) as [Hgt | Hle];
      destruct r1; simpl;
      try (destruct (truthy m) eqn:Hm; simpl);
      try (destruct (c + 1 >=? self_monitorCount self));
      repeat split; auto; try discriminate;
      try (intros msg Hx; discriminate Hx).
    all: intros msg Hx; inversion Hx; subst; left; repeat split; exact Hgt.
  - repeat split; auto; try discriminate;
      try (intros msg Hx; discriminate Hx).
    intros Hl. simpl. apply Hemit. exact Hl.
Qed.

End Invariants.

Section Runs.

Variable self : DockerServices.
Variable getTasks : Provider.
Variable name : string.
Variable existingTasks : list Task.
Variable existing : list string.

(** The same facts for a whole run of the loop. *)
Lemma checkTasks_facts :
  forall fuel st,
    let r := checkTasks fuel self getTasks name existingTasks existing st in
    (polls st <= polls (snd r) <= polls st + fuel)%nat /\
    (fst r <> OutOfFuel ->
     (polls (snd r) + waits st = S (polls st + waits (snd r)))%nat) /\
    (listener self = false -> log (snd r) = log st) /\
    (taskRunning (snd r) = true ->
     taskRunning st = true \/
     exists k tsk, (polls st <= k < polls (snd r))%nat /\
                   In tsk (getTasks k) /\
                   isNew existing tsk = true /\ isRunning tsk = true) /\
    (fst r = Return Done ->
     taskRunning (snd r) = true /\ truthy (monitoring (snd r)) = false) /\
    (forall msg, fst r = Throw msg ->
       (msg = "service timed out" /\ taskRunning (snd r) = false /\
        maxWaitTimes self < times (snd r)) \/
       (exists tsk, In tsk (getTasks (pred (polls (snd r)))) /\
                    isNew existing tsk = true /\
                    isFailure tsk = true /\ msg = failureMessage tsk)).
Proof.
  induction fuel as [|fuel IH]; intros st; simpl.
  - repeat split; auto; try lia; try discriminate; try contradiction.
  - pose proof (checkBody_facts self getTasks name existingTasks existing st)
      as Hb.
    destruct (checkBody self getTasks name existingTasks existing st)
      as [[o s']|s'].
    + simpl. destruct Hb as (Hp & Hw & Hl & Hr & Hd & Ht).
      repeat split; auto; try lia.
      * intros Hrun. destruct (Hr Hrun) as [H1 | (tsk & Hin & Hn & Hx)].
        -- left. exact H1.
        -- right. exists (polls st), tsk. repeat split; auto; lia.
      * apply Hd. assumption.
      * apply Hd. assumption.
      * intros msg Hm. rewrite Hp. simpl. exact (Ht msg Hm).
    + destruct Hb as (Hp & Hw & Hl & Hr).
      specialize (IH s'). simpl in IH.
      destruct IH as (I1 & I2 & I3 & I4 & I5 & I6).
      repeat split; auto; try lia.
      * intros Hne. specialize (I2 Hne). lia.
      * intros Hs. rewrite (I3 Hs). exact (Hl Hs).
      * intros Hrun.
        destruct (I4 Hrun) as [H1 | (k & tsk & Hk & Hin & Hn & Hx)].
        -- destruct (Hr H1) as [H2 | (tsk & Hin & Hn & Hx)].
           ++ left. exact H2.
           ++ right. exists (polls st), tsk. repeat split; auto; lia.
        -- right. exists k, tsk. repeat split; auto; lia.
      * apply I5. assumption.
      * apply I5. assumption.
Qed.


End Runs.

(** ** Bounds, origins of the verdicts, and what is ignored *)

(** X1: A call never makes more poll cycles than the budget, plus the extra
    cycles when extended monitoring is on, allow. *)
Theorem monitor_poll_bound :
  forall self getTasks name monitor polls0 log0 fuel,
    (cycles polls0
       (waitUntilRunning fuel self getTasks name monitor polls0 log0)
     <= Z.to_nat (maxWaitTimes self)
        + (if truthy monitor
           then 1 + Z.to_nat (self_monitorCount self) else 0)
        + 1)%nat.
Proof.
  intros self getTasks name monitor polls0 log0 fuel.
  unfold waitUntilRunning, cycles.
  set (st0 := mkSession false 0 monitor 0 _ (S polls0) 1).
  set (bound := (Z.to_nat (maxWaitTimes self)
                 + (if truthy monitor
                    then 1 + Z.to_nat (self_monitorCount self) else 0)
                 + 1)%nat).
  assert (Hleft : (cyclesLeft self st0 < bound)%nat).
  { unfold cyclesLeft, bound, st0. simpl. rewrite !Z.sub_0_r.
    destruct (truthy monitor); lia. }
  destruct (Nat.le_gt_cases fuel bound) as [Hle | Hgt].
  - pose proof (checkTasks_facts self getTasks name (getTasks polls0)
                  (baseline (getTasks polls0)) fuel st0) as (Hp & _).
    cbv zeta in Hp. change (polls st0) with (S polls0) in Hp. lia.
  - replace fuel with (bound + (fuel - bound))%nat by lia.
    rewrite checkTasks_fuel_stable
      by (apply checkTasks_terminates; exact Hleft).
    pose proof (checkTasks_facts self getTasks name (getTasks polls0)
                  (baseline (getTasks polls0)) bound st0) as (Hp & _).
    cbv zeta in Hp. change (polls st0) with (S polls0) in Hp. lia.
Qed.

(** X3: The "Done monitoring tasks" return is only taken after some poll of
    this call has shown a task outside the baseline in state [running]. *)
Theorem converged_only_after_running :
  forall self getTasks name monitor polls0 log0 fuel,
    fst (waitUntilRunning fuel self getTasks name monitor polls0 log0)
    = Return Done ->
    exists k tsk,
      (polls0 < k
       < polls (snd (waitUntilRunning fuel self getTasks name monitor
                       polls0 log0)))%nat /\
      In tsk (getTasks k) /\
      includes (baseline (getTasks polls0)) (ID tsk) = false /\
      State tsk = "running".
Proof.
  intros self getTasks name monitor polls0 log0 fuel.
  unfold waitUntilRunning.
  set (st0 := mkSession false 0 monitor 0 _ (S polls0) 1).
  pose proof (checkTasks_facts self getTasks name (getTasks polls0)
                (baseline (getTasks polls0)) fuel st0)
    as (_ & _ & _ & Hr & Hd & _).
  simpl in Hr, Hd. intros Hdone.
  destruct (Hd Hdone) as [Hrun _].
  destruct (Hr Hrun) as [H | (k & tsk & Hk & Hin & Hn & Hx)].
  - discriminate H.
  - exists k, tsk. split; [simpl in Hk; lia|]. split; [exact Hin|].
    split.
    + unfold isNew in Hn. destruct (includes _ (ID tsk));
        [discriminate | reflexivity].
    + apply String.eqb_eq. exact Hx.
Qed.

Lemma converged_only_after_running_witness :
  exists k tsk,
    (0 < k
     < polls (snd (waitUntilRunning 2 defaultSelf pendingThenRunning "svc"
                     (VBool false) 0 [])))%nat /\
    In tsk (pendingThenRunning k) /\
    includes (baseline (pendingThenRunning 0%nat)) (ID tsk) = false /\
    State tsk = "running".
Proof.
  apply (converged_only_after_running defaultSelf pendingThenRunning "svc"
           (VBool false) 0 [] 2).
  reflexivity.
Defined.

Section Refusals.

Variable self : DockerServices.
Variable getTasks : FallibleProvider.
Variable name : string.
Variable existingTasks : list Task.
Variable existing : list string.


End Refusals.

(** When the orchestrator answers every fetch, the monitor that allows for
    refusals is the monitor above. *)
Lemma waitUntilRunningF_answered :
  forall self (p : Provider) name monitor polls0 log0 fuel,
    waitUntilRunningF fuel self (fun k => Answered (p k)) name monitor
                      polls0 log0
    = waitUntilRunning fuel self p name monitor polls0 log0.
Proof.
  intros self p name monitor polls0 log0 fuel.
  unfold waitUntilRunningF, waitUntilRunning.
  generalize (mkSession false 0 monitor 0
                (emit self
                   (StartingMonitoring name (self_monitorCount self)
                      (waitDelay self) (maxWaitTimes self)) log0)
                (S polls0) 1).
  generalize (baseline (p polls0)). generalize (p polls0).
  induction fuel as [|fuel IH]; intros existingTasks existing st; simpl.
  - reflexivity.
  - unfold checkBodyF.
    change (checkBody self (fun _ => p (polls st)) name existingTasks
                      existing st)
      with (checkBody self p name existingTasks existing st).
    destruct (checkBody self p name existingTasks existing st) as [r|s'];
      [reflexivity | apply IH].
Qed.





(** X8: Without a listener a call delivers nothing: what had been received
    before the call is all there is after it. *)
Theorem no_listener_no_events :
  forall self getTasks name monitor polls0 log0 fuel,
    listener self = false ->
    log (snd (waitUntilRunning fuel self getTasks name monitor polls0 log0))
    = log0.
Proof.
  intros self getTasks name monitor polls0 log0 fuel Hl.
  unfold waitUntilRunning.
  set (st0 := mkSession false 0 monitor 0 _ (S polls0) 1).
  pose proof (checkTasks_facts self getTasks name (getTasks polls0)
                (baseline (getTasks polls0)) fuel st0)
    as (_ & _ & Hs & _).
  simpl in Hs. rewrite (Hs Hl). unfold st0. simpl. unfold emit.
  rewrite Hl. reflexivity.
Qed.

Lemma no_listener_no_events_witness :
  log (snd (waitUntilRunning 4 budget3 pendingForever "svc" (VBool true)
              0 [])) = [].
Proof.
  apply (no_listener_no_events budget3 pendingForever "svc" (VBool true)
           0 [] 4).
  reflexivity.
Defined.

Section Filtered.

Variable self : DockerServices.
Variable p p' : Provider.
Variable name : string.
Variable existingTasks : list Task.
Variable existing : list string.

Hypothesis same_new_tasks :
  forall k, filter (isNew existing) (p k) = filter (isNew existing) (p' k).

Lemma emit_sameUpToTaskCount (taskName : string) (n k k' : nat)
  (l : list Event) :
  sameUpToTaskCount (emit self (NoTasksFound taskName n k) l)
                    (emit self (NoTasksFound taskName n k') l).
Proof.
  unfold emit. destruct (listener self).
  - right. exists l, taskName, n, k, k'. split; reflexivity.
  - left. reflexivity.
Qed.

Lemma checkBody_filtered (st : Session) :
  match checkBody self p name existingTasks existing st,
        checkBody self p' name existingTasks existing st with
  | inl (o, a), inl (o', b) =>
      o = o' /\ set_log [] a = set_log [] b /\
      sameUpToTaskCount (log a) (log b)
  | inr a, inr b => a = b
  | _, _ => False
  end.
Proof.
  unfold checkBody.
  rewrite (forEachTask_filter self name existing (p (polls st))).
  rewrite (forEachTask_filter self name existing (p' (polls st))).
  rewrite (same_new_tasks (polls st)).
  destruct (forEachTask self name existing
              (filter (isNew existing) (p' (polls st))) false
              (set_polls (S (polls st)) st)) as [[o f] s1].
  destruct o as [msg|];
    [split; [reflexivity | split; [reflexivity | left; reflexivity]]|].
  destruct f.
  - destruct ((times (set_times (times s1 + 1) s1) >? maxWaitTimes self)
              && negb (taskRunning (set_times (times s1 + 1) s1)));
      [split; [reflexivity | split; [reflexivity | left; reflexivity]]|].
    destruct (taskRunning (set_times (times s1 + 1) s1)
              && negb (truthy (monitoring (set_times (times s1 + 1) s1))));
      [split; [reflexivity | split; [reflexivity | left; reflexivity]]|].
    reflexivity.
  - split; [reflexivity|]. split; [destruct s1; reflexivity|].
    simpl. apply emit_sameUpToTaskCount.
Qed.

Lemma checkTasks_filtered :
  forall fuel st,
    fst (checkTasks fuel self p name existingTasks existing st)
    = fst (checkTasks fuel self p' name existingTasks existing st) /\
    set_log [] (snd (checkTasks fuel self p name existingTasks existing st))
    = set_log []
        (snd (checkTasks fuel self p' name existingTasks existing st)) /\
    sameUpToTaskCount
      (log (snd (checkTasks fuel self p name existingTasks existing st)))
      (log (snd (checkTasks fuel self p' name existingTasks existing st))).
Proof.
  induction fuel as [|fuel IH]; intros st; simpl.
  - split; [reflexivity|]. split; [reflexivity | left; reflexivity].
  - pose proof (checkBody_filtered st) as H.
    destruct (checkBody self p name existingTasks existing st)
      as [[o a]|a];
      destruct (checkBody self p' name existingTasks existing st)
        as [[o' b]|b]; try contradiction.
    + exact H.
    + subst b. apply IH.
Qed.

End Filtered.

(** X9: Tasks of the baseline never count: two orchestrators that give the
    same first answer and whose later answers differ only in tasks of the
    baseline lead to the same outcome, the same session (flag, counters,
    polls, waits) and the same events in the same order, but for the
    number of tasks that the final "No tasks found" observation reports. *)
Theorem baseline_tasks_are_ignored :
  forall self p p' name monitor polls0 log0 fuel,
    p polls0 = p' polls0 ->
    (forall k, filter (isNew (baseline (p polls0))) (p k)
               = filter (isNew (baseline (p polls0))) (p' k)) ->
    fst (waitUntilRunning fuel self p name monitor polls0 log0)
    = fst (waitUntilRunning fuel self p' name monitor polls0 log0) /\
    set_log [] (snd (waitUntilRunning fuel self p name monitor polls0 log0))
    = set_log []
        (snd (waitUntilRunning fuel self p' name monitor polls0 log0)) /\
    sameUpToTaskCount
      (log (snd (waitUntilRunning fuel self p name monitor polls0 log0)))
      (log (snd (waitUntilRunning fuel self p' name monitor polls0 log0))).
Proof.
  intros self p p' name monitor polls0 log0 fuel H0 Hk.
  unfold waitUntilRunning. rewrite <- H0.
  apply checkTasks_filtered. exact Hk.
Qed.

Lemma baseline_tasks_are_ignored_witness :
  fst (waitUntilRunning 3 defaultSelf pendingThenRunning "svc" (VBool false)
         0 [])
  = fst (waitUntilRunning 3 defaultSelf baselineTaskFails "svc" (VBool false)
           0 []) /\
  set_log []
    (snd (waitUntilRunning 3 defaultSelf pendingThenRunning "svc"
            (VBool false) 0 []))
  = set_log []
      (snd (waitUntilRunning 3 defaultSelf baselineTaskFails "svc"
              (VBool false) 0 [])) /\
  sameUpToTaskCount
    (log (snd (waitUntilRunning 3 defaultSelf pendingThenRunning "svc"
                 (VBool false) 0 [])))
    (log (snd (waitUntilRunning 3 defaultSelf baselineTaskFails "svc"
                 (VBool false) 0 []))).
Proof.
  apply (baseline_tasks_are_ignored defaultSelf pendingThenRunning
           baselineTaskFails "svc" (VBool false) 0 [] 3).
  - reflexivity.
  - intros k. destruct k as [|[|k]]; reflexivity.
Defined.

(** * Properties of the constructor *)

(** X11: The polling interval is never 0 (an option of 0 falls back to the
    default); and with a positive interval and non-negative wait time and
    observation window, all integers below 2^53, the two derived counts
    are the whole numbers of intervals that fit in the wait time and in
    the observation window. *)
Theorem constructor_counts :
  forall options,
    waitDelay (constructor options) <> 0 /\
    (0 < waitDelay (constructor options) < 2 ^ 53 ->
     0 <= orDefault (opt_waitTime options) (1000 * 60) < 2 ^ 53 ->
     0 <= monitorFor (constructor options) < 2 ^ 53 ->
     (maxWaitTimes (constructor options) * waitDelay (constructor options)
      <= orDefault (opt_waitTime options) (1000 * 60)
      < (maxWaitTimes (constructor options) + 1)
        * waitDelay (constructor options)) /\
     (self_monitorCount (constructor options)
      * waitDelay (constructor options)
      <= monitorFor (constructor options)
      < (self_monitorCount (constructor options) + 1)
        * waitDelay (constructor options))).
Proof.
  intros options. unfold constructor. simpl.
  set (wd := orDefault (opt_waitDelay options) 2000).
  set (mf := orDefault (opt_monitorFor options) 3000).
  set (wt := orDefault (opt_waitTime options) 60000).
  split.
  - unfold wd, orDefault. destruct (opt_waitDelay options) as [n|].
    + destruct (Z.eqb_spec n 0); lia.
    + lia.
  - intros [Hpos _] _ _.
    pose proof (Z.div_mod wt wd ltac:(lia)) as H1.
    pose proof (Z.mod_pos_bound wt wd Hpos) as H2.
    pose proof (Z.div_mod mf wd ltac:(lia)) as H3.
    pose proof (Z.mod_pos_bound mf wd Hpos) as H4.
    split; nia.
Qed.

Lemma constructor_counts_witness :
  (maxWaitTimes (constructor (mkOptions (Some 700) None (Some 5000) false))
   * 700 <= 5000
   < (maxWaitTimes (constructor (mkOptions (Some 700) None (Some 5000) false))
      + 1) * 700) /\
  (self_monitorCount
     (constructor (mkOptions (Some 700) None (Some 5000) false)) * 700
   <= 3000
   < (self_monitorCount
        (constructor (mkOptions (Some 700) None (Some 5000) false)) + 1)
     * 700).
Proof.
  apply (constructor_counts (mkOptions (Some 700) None (Some 5000) false));
    vm_compute; split; congruence.
Defined.

(** * Further properties of the spec merger *)

Lemma andThen_keeps {A : Type} (part : ServiceSpec -> A) (a b : Step) :
  keeps part a -> keeps part b -> keeps part (a ;; b).
Proof.
  intros Ha Hb s. unfold andThen.
  specialize (Ha s). destruct (a s) as [s' [e|]]; simpl in *.
  - exact Ha.
  - rewrite Hb. exact Ha.
Qed.

Lemma beforeAt_no_at (s : string) :
  ~ In "@"%char (list_ascii_of_string (beforeAt s)).
Proof.
  induction s as [|c s IH]; simpl.
  - intros [].
  - destruct (Ascii.eqb_spec c "@"%char) as [E | E]; simpl.
    + intros [].
    + intros [H | H]; [congruence | exact (IH H)].
Qed.

(** Unfolds the steps and decides their tests, using the hypotheses on
    the truth value of the options. *)
Ltac step_cases :=
  unfold validateStep, imageStep, envStep, labelsStep, replicasStep,
         forceStep, jsOr;
  repeat match goal with
         | H : truthy _ = _ |- _ => rewrite H
         end;
  repeat match goal with
         | |- context [if ?c then _ else _] => destruct c; simpl
         | |- context [match removeKeys ?a ?b ?c with _ => _ end] =>
             destruct (removeKeys a b c); simpl
         | |- context [match Image ?x with _ => _ end] =>
             destruct (Image x); simpl
         end;
  try reflexivity.

Section Frames.

Variable L : Deps.
Variable options : Obj.

Lemma steps_keep_untouchedParts :
  keeps untouchedParts (validateStep L options) /\
  keeps untouchedParts (imageStep options) /\
  keeps untouchedParts (envStep L options) /\
  keeps untouchedParts (labelsStep L options) /\
  keeps untouchedParts (replicasStep options) /\
  keeps untouchedParts (forceStep options).
Proof. repeat split; intros s; step_cases. Qed.

Lemma adjustSpec_keeps_untouchedParts :
  keeps untouchedParts (fun s => adjustSpec L s options).
Proof.
  destruct steps_keep_untouchedParts as (H1 & H2 & H3 & H4 & H5 & H6).
  unfold adjustSpec. repeat apply andThen_keeps; assumption.
Qed.

Lemma middle_steps_keep_image :
  keeps imageOf (validateStep L options) /\
  keeps imageOf (envStep L options) /\
  keeps imageOf (labelsStep L options) /\
  keeps imageOf (replicasStep options).
Proof. repeat split; intros s; step_cases. Qed.

Lemma early_steps_keep_forceUpdate :
  keeps forceUpdateOf (validateStep L options) /\
  keeps forceUpdateOf (imageStep options) /\
  keeps forceUpdateOf (envStep L options) /\
  keeps forceUpdateOf (labelsStep L options) /\
  keeps forceUpdateOf (replicasStep options).
Proof. repeat split; intros s; step_cases. Qed.

Lemma other_steps_keep_env :
  keeps envOf (validateStep L options) /\
  keeps envOf (imageStep options) /\
  keeps envOf (labelsStep L options) /\
  keeps envOf (replicasStep options) /\
  keeps envOf (forceStep options).
Proof. repeat split; intros s; step_cases. Qed.

Lemma other_steps_keep_labels :
  keeps labelsOf (validateStep L options) /\
  keeps labelsOf (imageStep options) /\
  keeps labelsOf (envStep L options) /\
  keeps labelsOf (replicasStep options) /\
  keeps labelsOf (forceStep options).
Proof. repeat split; intros s; step_cases. Qed.

Lemma other_steps_keep_mode :
  keeps Mode (validateStep L options) /\
  keeps Mode (imageStep options) /\
  keeps Mode (envStep L options) /\
  keeps Mode (labelsStep L options) /\
  keeps Mode (forceStep options).
Proof. repeat split; intros s; step_cases. Qed.

Lemma imageStep_skipped :
  truthy (getProp "image" options) = false ->
  keeps imageOf (imageStep options).
Proof. intros H s. step_cases. Qed.

Lemma forceStep_skipped {A : Type} (part : ServiceSpec -> A) :
  truthy (getProp "force" options) = false ->
  keeps part (forceStep options).
Proof. intros H s. step_cases. Qed.

Lemma envStep_skipped :
  truthy (getProp "env" options) = false ->
  truthy (getProp "envRemove" options) = false ->
  keeps envOf (envStep L options).
Proof. intros H1 H2 s. step_cases. Qed.

Lemma labelsStep_skipped :
  truthy (getProp "labels" options) = false ->
  truthy (getProp "labelRemove" options) = false ->
  keeps labelsOf (labelsStep L options).
Proof. intros H1 H2 s. step_cases. Qed.

Lemma imageStep_ok (s : ServiceSpec) : snd (imageStep options s) = None.
Proof. step_cases. Qed.

Lemma replicasStep_ok (s : ServiceSpec) :
  snd (replicasStep options s) = None.
Proof. step_cases. Qed.

Lemma removeKeys_error_message (keys : JsVal) (merged : Obj) (e : Error) :
  removeKeys L keys merged = inl e ->
  e = TypeError ForEachOfNonArray.
Proof.
  unfold removeKeys. destruct (truthy keys); [|discriminate].
  destruct keys; intros H; inversion H; reflexivity.
Qed.

Lemma envStep_error_message (s : ServiceSpec) (e : Error) :
  snd (envStep L options s) = Some e ->
  e = TypeError ForEachOfNonArray.
Proof.
  unfold envStep.
  destruct (truthy (jsOr (getProp "env" options)
                         (getProp "envRemove" options))); [|discriminate].
  destruct (removeKeys L (getProp "envRemove" options) _) eqn:E;
    [|discriminate].
  simpl. intros H. inversion H; subst.
  exact (removeKeys_error_message _ _ _ E).
Qed.

Lemma labelsStep_error_message (s : ServiceSpec) (e : Error) :
  snd (labelsStep L options s) = Some e ->
  e = TypeError ForEachOfNonArray.
Proof.
  unfold labelsStep.
  destruct (truthy (jsOr (getProp "labels" options)
                         (getProp "labelRemove" options))); [|discriminate].
  destruct (removeKeys L (getProp "labelRemove" options) _) eqn:E;
    [|discriminate].
  simpl. intros H. inversion H; subst.
  exact (removeKeys_error_message _ _ _ E).
Qed.

(** The run of [adjustSpec], step by step, up to the force branch: either
    an earlier step threw (validation, or a [forEach] on a non-array), or
    all of them went through and the force branch decides. *)
Lemma adjustSpec_run (spec : ServiceSpec) :
  (exists e, snd (adjustSpec L spec options) = Some e /\
             ((exists k why, e = ValidationError k why) \/
              e = TypeError ForEachOfNonArray)) \/
  (exists s1 s2 s3 s4,
      validate L options = None /\
      imageStep options spec = (s1, None) /\
      envStep L options s1 = (s2, None) /\
      labelsStep L options s2 = (s3, None) /\
      replicasStep options s3 = (s4, None) /\
      adjustSpec L spec options = forceStep options s4).
Proof.
  unfold adjustSpec, andThen, validateStep.
  destruct (validate L options) as [e|] eqn:V.
  - left. exists e. split; [reflexivity|]. left.
    exact (validate_error L options e V).
  - pose proof (imageStep_ok spec) as H1.
    destruct (imageStep options spec) as [s1 e1] eqn:E1.
    simpl in H1. subst e1.
    destruct (envStep L options s1) as [s2 [e2|]] eqn:E2.
    + left. exists e2. split; [reflexivity|]. right.
      apply (envStep_error_message s1). rewrite E2. reflexivity.
    + destruct (labelsStep L options s2) as [s3 [e3|]] eqn:E3.
      * left. exists e3. split; [reflexivity|]. right.
        apply (labelsStep_error_message s2). rewrite E3. reflexivity.
      * pose proof (replicasStep_ok s3) as H4.
        destruct (replicasStep options s3) as [s4 e4] eqn:E4.
        simpl in H4. subst e4.
        right. exists s1, s2, s3, s4.
        repeat split; try assumption; reflexivity.
Qed.

End Frames.

(** ** What a merge touches *)

(** X12: Whatever the options, and whether it throws or not, [adjustSpec]
    leaves the name, the version stamp and every property it has no branch
    for as they were. *)
Theorem adjustSpec_leaves_the_rest :
  forall L spec options,
    Name (fst (adjustSpec L spec options)) = Name spec /\
    version (fst (adjustSpec L spec options)) = version spec /\
    spec_rest (fst (adjustSpec L spec options)) = spec_rest spec /\
    taskTemplate_rest (TaskTemplate (fst (adjustSpec L spec options)))
    = taskTemplate_rest (TaskTemplate spec) /\
    containerSpec_rest
      (ContainerSpec (TaskTemplate (fst (adjustSpec L spec options))))
    = containerSpec_rest (ContainerSpec (TaskTemplate spec)).
Proof.
  intros L spec options.
  pose proof (adjustSpec_keeps_untouchedParts L options spec) as H.
  unfold untouchedParts in H. inversion H. repeat split; reflexivity.
Qed.

(** X13: An option that is absent (or falsy) leaves its part of the spec alone,
    thrown or not: the image without [image] and [force], the environment
    without [env] and [envRemove], the labels without [labels] and
    [labelRemove], the force-update counter without [force]. *)
Theorem adjustSpec_touches_only_what_is_asked :
  forall L spec options,
    (truthy (getProp "image" options) = false ->
     truthy (getProp "force" options) = false ->
     imageOf (fst (adjustSpec L spec options)) = imageOf spec) /\
    (truthy (getProp "env" options) = false ->
     truthy (getProp "envRemove" options) = false ->
     envOf (fst (adjustSpec L spec options)) = envOf spec) /\
    (truthy (getProp "labels" options) = false ->
     truthy (getProp "labelRemove" options) = false ->
     labelsOf (fst (adjustSpec L spec options)) = labelsOf spec) /\
    (truthy (getProp "force" options) = false ->
     forceUpdateOf (fst (adjustSpec L spec options)) = forceUpdateOf spec).
Proof.
  intros L spec options.
  destruct (middle_steps_keep_image L options) as (I1 & I2 & I3 & I4).
  destruct (early_steps_keep_forceUpdate L options)
    as (F1 & F2 & F3 & F4 & F5).
  destruct (other_steps_keep_env L options) as (E1 & E2 & E3 & E4 & E5).
  destruct (other_steps_keep_labels L options)
    as (B1 & B2 & B3 & B4 & B5).
  repeat split.
  - intros Hi Hf.
    assert (K : keeps imageOf (fun s => adjustSpec L s options)).
    { unfold adjustSpec. repeat apply andThen_keeps; auto.
      - apply imageStep_skipped. exact Hi.
      - apply forceStep_skipped. exact Hf. }
    exact (K spec).
  - intros He Hr.
    assert (K : keeps envOf (fun s => adjustSpec L s options)).
    { unfold adjustSpec. repeat apply andThen_keeps; auto.
      apply envStep_skipped; assumption. }
    exact (K spec).
  - intros Hl Hr.
    assert (K : keeps labelsOf (fun s => adjustSpec L s options)).
    { unfold adjustSpec. repeat apply andThen_keeps; auto.
      apply labelsStep_skipped; assumption. }
    exact (K spec).
  - intros Hf.
    assert (K : keeps forceUpdateOf (fun s => adjustSpec L s options)).
    { unfold adjustSpec. repeat apply andThen_keeps; auto.
      apply forceStep_skipped. exact Hf. }
    exact (K spec).
Qed.

Lemma adjustSpec_touches_only_what_is_asked_witness :
  imageOf (fst (adjustSpec refDeps exampleSpec [("replicas", VNum 5)]))
  = imageOf exampleSpec /\
  envOf (fst (adjustSpec refDeps exampleSpec [("replicas", VNum 5)]))
  = envOf exampleSpec /\
  labelsOf (fst (adjustSpec refDeps exampleSpec [("replicas", VNum 5)]))
  = labelsOf exampleSpec /\
  forceUpdateOf (fst (adjustSpec refDeps exampleSpec [("replicas", VNum 5)]))
  = forceUpdateOf exampleSpec.
Proof.
  destruct (adjustSpec_touches_only_what_is_asked refDeps exampleSpec
              [("replicas", VNum 5)]) as (H1 & H2 & H3 & H4).
  split; [apply H1; reflexivity|].
  split; [apply H2; reflexivity|].
  split; [apply H3; reflexivity | apply H4; reflexivity].
Defined.

(** ** Replicas *)

(** X14: When [adjustSpec] succeeds with a truthy [replicas], the replica count
    of the result is that value; the replicated-mode substructure is
    created where it was missing, and the other properties of [Mode] and
    of [Mode.Replicated] are kept. *)
Theorem replicas_are_set :
  forall L spec options,
    snd (adjustSpec L spec options) = None ->
    truthy (getProp "replicas" options) = true ->
    Mode (fst (adjustSpec L spec options))
    = Some (mkMode
              (Some (mkReplicated (getProp "replicas" options)
                                  (replicatedRest spec)))
              (modeRest spec)).
Proof.
  intros L spec options Hok Hr.
  destruct (other_steps_keep_mode L options) as (M1 & M2 & M3 & M4 & M5).
  destruct (adjustSpec_run L options spec)
    as [(e & He & _) | (s1 & s2 & s3 & s4 & V & E1 & E2 & E3 & E4 & Hrun)].
  - rewrite He in Hok. discriminate.
  - rewrite Hrun. rewrite M5.
    assert (Hm : Mode s3 = Mode spec).
    { pose proof (M4 s2) as H4. rewrite E3 in H4.
      pose proof (M3 s1) as H3. rewrite E2 in H3.
      pose proof (M2 spec) as H2. rewrite E1 in H2.
      simpl in *. congruence. }
    unfold replicasStep in E4. rewrite Hr in E4. inversion E4; subst s4.
    unfold replicatedRest, modeRest. rewrite <- Hm. simpl.
    destruct (Mode s3) as [m|]; [|reflexivity].
    destruct (Replicated m); reflexivity.
Qed.

Lemma replicas_are_set_witness :
  Mode (fst (adjustSpec refDeps imagelessSpec [("replicas", VNum 5)]))
  = Some (mkMode (Some (mkReplicated (VNum 5) [])) []).
Proof.
  apply (replicas_are_set refDeps imagelessSpec [("replicas", VNum 5)]);
    reflexivity.
Defined.

(** ** Forced redeployment *)

(** X15: When [adjustSpec] succeeds with a truthy [force], the image it started
    from (the [image] option when there is one, the spec's image
    otherwise) is a string; the result holds that string cut at its first
    [@], hence without any [@]; and the force-update counter is one more
    than it was (counting an absent counter as 0), as long as that is
    within 2^53 in magnitude, where JavaScript adds integers exactly. *)
Theorem force_strips_digest :
  forall L spec options,
    snd (adjustSpec L spec options) = None ->
    truthy (getProp "force" options) = true ->
    exists image,
      (if truthy (getProp "image" options)
       then getProp "image" options else imageOf spec) = VStr image /\
      imageOf (fst (adjustSpec L spec options)) = VStr (beforeAt image) /\
      ~ In "@"%char (list_ascii_of_string (beforeAt image)) /\
      (Z.abs (orDefault (forceUpdateOf spec) 0 + 1) <= 2 ^ 53 ->
       forceUpdateOf (fst (adjustSpec L spec options))
       = Some (orDefault (forceUpdateOf spec) 0 + 1)).
Proof.
  intros L spec options Hok Hf.
  destruct (middle_steps_keep_image L options) as (_ & I2 & I3 & I4).
  destruct (early_steps_keep_forceUpdate L options)
    as (_ & F2 & F3 & F4 & F5).
  destruct (adjustSpec_run L options spec)
    as [(e & He & _) | (s1 & s2 & s3 & s4 & V & E1 & E2 & E3 & E4 & Hrun)].
  - rewrite He in Hok. discriminate.
  - assert (Hi : imageOf s4 = imageOf s1).
    { pose proof (I4 s3) as H4. rewrite E4 in H4.
      pose proof (I3 s2) as H3. rewrite E3 in H3.
      pose proof (I2 s1) as H2. rewrite E2 in H2.
      simpl in *. congruence. }
    assert (Hu : forceUpdateOf s4 = forceUpdateOf spec).
    { pose proof (F5 s3) as H5. rewrite E4 in H5.
      pose proof (F4 s2) as H4. rewrite E3 in H4.
      pose proof (F3 s1) as H3. rewrite E2 in H3.
      pose proof (F2 spec) as H2. rewrite E1 in H2.
      simpl in *. congruence. }
    assert (H1 : imageOf s1
                 = if truthy (getProp "image" options)
                   then getProp "image" options else imageOf spec).
    { unfold imageStep in E1.
      destruct (truthy (getProp "image" options)); inversion E1;
        reflexivity. }
    rewrite Hrun in *. unfold forceStep in *. rewrite Hf in *.
    unfold forceUpdateOf in Hu. rewrite Hu in *.
    change (Image (ContainerSpec (TaskTemplate
              (set_ForceUpdate
                 (jsAdd (orDefault (ForceUpdate (TaskTemplate spec)) 0) 1)
                 s4))))
      with (imageOf s4) in *.
    rewrite Hi, H1 in *.
    destruct (if truthy (getProp "image" options)
              then getProp "image" options else imageOf spec)
      as [| | | |image| |]; simpl in Hok; try discriminate.
    exists image. split; [reflexivity|]. split; [reflexivity|].
    split; [apply beforeAt_no_at|].
    intros Hb. unfold forceUpdateOf in *. simpl.
    rewrite (jsAdd_exact _ 1 Hb). reflexivity.
Qed.

Lemma force_strips_digest_witness :
  exists image,
    (if truthy (getProp "image"
                  [("image", VStr "app:2@sha256:ff"); ("force", VBool true)])
     then getProp "image"
            [("image", VStr "app:2@sha256:ff"); ("force", VBool true)]
     else imageOf exampleSpec) = VStr image /\
    imageOf (fst (adjustSpec refDeps exampleSpec
                    [("image", VStr "app:2@sha256:ff");
                     ("force", VBool true)]))
    = VStr (beforeAt image) /\
    ~ In "@"%char (list_ascii_of_string (beforeAt image)) /\
    forceUpdateOf (fst (adjustSpec refDeps exampleSpec
                          [("image", VStr "app:2@sha256:ff");
                           ("force", VBool true)]))
    = Some (orDefault (forceUpdateOf exampleSpec) 0 + 1).
Proof.
  destruct (force_strips_digest refDeps exampleSpec
              [("image", VStr "app:2@sha256:ff"); ("force", VBool true)]
              eq_refl eq_refl) as (image & H1 & H2 & H3 & H4).
  exists image. split; [exact H1|]. split; [exact H2|].
  split; [exact H3|]. apply H4. vm_compute. discriminate.
Defined.

(** X16: [adjustSpec] is not atomic: when it throws because the image is not a
    string and cannot be split, the force-update counter of the spec object
    has already been incremented (by one, for a counter that stays within
    2^53 in magnitude, where JavaScript adds integers exactly). *)
Theorem failed_force_has_incremented_the_counter :
  forall L spec options,
    snd (adjustSpec L spec options)
    = Some (TypeError SplitOfNonString) ->
    Z.abs (orDefault (forceUpdateOf spec) 0 + 1) <= 2 ^ 53 ->
    forceUpdateOf (fst (adjustSpec L spec options))
    = Some (orDefault (forceUpdateOf spec) 0 + 1) /\
    forall image, imageOf (fst (adjustSpec L spec options)) <> VStr image.
Proof.
  intros L spec options Herr Hb.
  destruct (early_steps_keep_forceUpdate L options)
    as (_ & F2 & F3 & F4 & F5).
  destruct (adjustSpec_run L options spec)
    as [(e & He & [(k & why & Hv) | Ht])
       | (s1 & s2 & s3 & s4 & V & E1 & E2 & E3 & E4 & Hrun)].
  - rewrite He in Herr. subst e. discriminate.
  - rewrite He in Herr. subst e. discriminate.
  - assert (Hu : forceUpdateOf s4 = forceUpdateOf spec).
    { pose proof (F5 s3) as H5. rewrite E4 in H5.
      pose proof (F4 s2) as H4. rewrite E3 in H4.
      pose proof (F3 s1) as H3. rewrite E2 in H3.
      pose proof (F2 spec) as H2. rewrite E1 in H2.
      simpl in *. congruence. }
    rewrite Hrun in *. unfold forceStep in *.
    destruct (truthy (getProp "force" options)); [|discriminate].
    unfold forceUpdateOf in Hu. rewrite Hu in *.
    change (Image (ContainerSpec (TaskTemplate
              (set_ForceUpdate
                 (jsAdd (orDefault (ForceUpdate (TaskTemplate spec)) 0) 1)
                 s4))))
      with (imageOf s4) in *.
    destruct (imageOf s4) eqn:Hi; simpl in Herr; try discriminate;
      (split;
       [unfold forceUpdateOf in *; simpl; rewrite (jsAdd_exact _ 1 Hb);
        reflexivity|]);
      intros image;
      change (imageOf s4 <> VStr image); rewrite Hi; discriminate.
Qed.

Lemma failed_force_has_incremented_the_counter_witness :
  forceUpdateOf (fst (adjustSpec refDeps imagelessSpec
                        [("force", VBool true)]))
  = Some (orDefault (forceUpdateOf imagelessSpec) 0 + 1) /\
  forall image,
    imageOf (fst (adjustSpec refDeps imagelessSpec [("force", VBool true)]))
    <> VStr image.
Proof.
  apply (failed_force_has_incremented_the_counter refDeps imagelessSpec
           [("force", VBool true)]).
  - reflexivity.
  - vm_compute. discriminate.
Defined.

(** ** Applying the same adjustment again *)

(** X17: With options that neither merge an environment or labels nor force a
    redeployment (so: an image, a replica count, or nothing), applying
    [adjustSpec] to its own result gives that result again. *)
Theorem adjustSpec_idempotent_on_image_and_replicas :
  forall L spec options,
    truthy (getProp "env" options) = false ->
    truthy (getProp "envRemove" options) = false ->
    truthy (getProp "labels" options) = false ->
    truthy (getProp "labelRemove" options) = false ->
    truthy (getProp "force" options) = false ->
    adjustSpec L (fst (adjustSpec L spec options)) options
    = adjustSpec L spec options.
Proof.
  intros L spec options He Her Hl Hlr Hf.
  unfold adjustSpec, andThen, validateStep, imageStep, envStep, labelsStep,
         replicasStep, forceStep, jsOr.
  rewrite He, Her, Hl, Hlr, Hf.
  destruct (validate L options); [reflexivity|].
  destruct (truthy (getProp "image" options));
    destruct (truthy (getProp "replicas" options));
    destruct spec as [n v [[img env lbl csr] fu ttr] [[[[r rr]|] mr]|] rest];
    reflexivity.
Qed.

Lemma adjustSpec_idempotent_on_image_and_replicas_witness :
  adjustSpec refDeps
    (fst (adjustSpec refDeps exampleSpec
            [("image", VStr "app:2"); ("replicas", VNum 5)]))
    [("image", VStr "app:2"); ("replicas", VNum 5)]
  = adjustSpec refDeps exampleSpec
      [("image", VStr "app:2"); ("replicas", VNum 5)].
Proof.
  apply (adjustSpec_idempotent_on_image_and_replicas refDeps exampleSpec
           [("image", VStr "app:2"); ("replicas", VNum 5)]);
    reflexivity.
Defined.

(** * Properties of [adjust] and [scale] *)

(** X18: [adjust] submits at most one update, after its two reads and only when
    [adjustSpec] has not thrown; the spec it submits is the result of
    [adjustSpec] on the inspected spec, under the service's name and
    stamped with the inspected version index. *)
Theorem adjust_submits_one_stamped_update :
  forall fuel self L orch name options n s,
    In (UpdateCall n s) (net (adjust fuel self L orch name options)) ->
    net (adjust fuel self L orch name options)
    = [ListTasksCall name; InspectCall name; UpdateCall name s] /\
    n = name /\
    adjustSpec L (set_version (VersionIndex (inspect orch))
                              (Spec (inspect orch))) options
    = (s, None) /\
    version s = Some (VersionIndex (inspect orch)) /\
    Name s = Name (Spec (inspect orch)).
Proof.
  intros fuel self L orch name options n s Hin.
  pose proof (adjustSpec_keeps_untouchedParts L options
                (set_version (VersionIndex (inspect orch))
                             (Spec (inspect orch)))) as Hk.
  unfold adjust in *.
  destruct (adjustSpec L
              (set_version (VersionIndex (inspect orch))
                           (Spec (inspect orch))) options)
    as [newSpec [e|]]; simpl in Hin.
  - destruct Hin as [H | [H | []]]; discriminate.
  - destruct Hin as [H | [H | [H | []]]]; try discriminate.
    inversion H; subst. unfold untouchedParts in Hk. simpl in Hk.
    inversion Hk. repeat split; reflexivity.
Qed.

Lemma adjust_submits_one_stamped_update_witness :
  net (adjust 3 defaultSelf refDeps replacementFailedEarly "svc-x"
         [("replicas", VNum 5)])
  = [ListTasksCall "svc-x"; InspectCall "svc-x";
     UpdateCall "svc-x"
       (fst (adjustSpec refDeps (set_version 7 exampleSpec)
               [("replicas", VNum 5)]))] /\
  "svc-x" = "svc-x" /\
  adjustSpec refDeps
    (set_version (VersionIndex (inspect replacementFailedEarly))
                 (Spec (inspect replacementFailedEarly)))
    [("replicas", VNum 5)]
  = (fst (adjustSpec refDeps (set_version 7 exampleSpec)
            [("replicas", VNum 5)]), None) /\
  version (fst (adjustSpec refDeps (set_version 7 exampleSpec)
                  [("replicas", VNum 5)]))
  = Some (VersionIndex (inspect replacementFailedEarly)) /\
  Name (fst (adjustSpec refDeps (set_version 7 exampleSpec)
               [("replicas", VNum 5)]))
  = Name (Spec (inspect replacementFailedEarly)).
Proof.
  apply (adjust_submits_one_stamped_update 3 defaultSelf refDeps
           replacementFailedEarly "svc-x" [("replicas", VNum 5)] "svc-x").
  right. right. left. reflexivity.
Defined.

(** X19: [scale (name, n)] with a number [n] other than 0 that Joi accepts
    submits the inspected spec with the version stamp and with the replica
    count set to [n], and nothing else changed. *)
Theorem scale_submits_the_replica_count :
  forall fuel self L orch name n,
    joi L JoiNumber (VNum n) = true ->
    n <> 0 ->
    net (scale fuel self L orch name (VNum n))
    = [ListTasksCall name; InspectCall name;
       UpdateCall name
         (set_Mode
            (mkMode
               (Some (mkReplicated (VNum n)
                                   (replicatedRest (Spec (inspect orch)))))
               (modeRest (Spec (inspect orch))))
            (set_version (VersionIndex (inspect orch))
                         (Spec (inspect orch))))].
Proof.
  intros fuel self L orch name n Hj Hn.
  unfold scale, adjust, adjustSpec, andThen, validateStep, validate.
  simpl. rewrite Hj. simpl.
  unfold replicasStep. simpl.
  replace (n =? 0) with false by (symmetry; apply Z.eqb_neq; exact Hn).
  simpl. unfold replicatedRest, modeRest.
  destruct (Spec (inspect orch))
    as [nm v [[img env lbl csr] fu ttr] [[[[r rr]|] mr]|] rest];
    reflexivity.
Qed.

Lemma scale_submits_the_replica_count_witness :
  net (scale 3 defaultSelf refDeps replacementFailedEarly "svc-x" (VNum 5))
  = [ListTasksCall "svc-x"; InspectCall "svc-x";
     UpdateCall "svc-x"
       (set_Mode (mkMode (Some (mkReplicated (VNum 5) [])) [])
                 (set_version 7 exampleSpec))].
Proof.
  apply (scale_submits_the_replica_count 3 defaultSelf refDeps
           replacementFailedEarly "svc-x" 5).
  - reflexivity.
  - discriminate.
Defined.

(** * When the monitor reports a timeout, and when it cannot *)

Lemma append_length (a b : string) :
  String.length (a ++ b) = (String.length a + String.length b)%nat.
Proof.
  induction a as [|c a IH]; simpl; [reflexivity | rewrite IH; reflexivity].
Qed.

(** The message of a task failure is never the timeout message. *)
Lemma failureMessage_not_timeout (tsk : Task) :
  failureMessage tsk <> "service timed out".
Proof.
  intros H. apply (f_equal String.length) in H.
  unfold failureMessage in H. rewrite !append_length in H.
  simpl in H. lia.
Qed.

Lemma existsb_false_inv {A : Type} (f : A -> bool) (l : list A) :
  existsb f l = false -> forall x, In x l -> f x = false.
Proof.
  induction l as [|a l IH]; intros H x Hx; simpl in *.
  - contradiction.
  - apply orb_false_iff in H. destruct H as [Ha Hl].
    destruct Hx as [Hx | Hx]; [subst; exact Ha | exact (IH Hl x Hx)].
Qed.

Section TimeoutSound.

Variable self : DockerServices.
Variable getTasks : Provider.
Variable name : string.
Variable existingTasks : list Task.
Variable existing : list string.

(** A scan that does not throw has met no failed new task, and it has
    raised [taskRunning] exactly when it has met a running one. *)
Lemma forEachTask_completes (tasks : list Task) :
  forall found st f st',
    forEachTask self name existing tasks found st = (None, f, st') ->
    noFailure existing tasks /\
    taskRunning st' = runningAfter existing st tasks.
Proof.
  intros found st f st' H.
  assert (Hnf : noFailure existing tasks).
  { intros tsk Hin Hn. destruct (isFailure tsk) eqn:F; [|reflexivity].
    exfalso.
    destruct (find (fun t => isNew existing t && isFailure t) tasks)
      as [t|] eqn:Hf.
    - destruct (forEachTask_failure self name existing tasks found st t Hf)
        as [st'' Hs]. rewrite Hs in H. discriminate.
    - pose proof (find_none _ _ Hf tsk Hin) as Hx. simpl in Hx.
      rewrite Hn, F in Hx. discriminate. }
  split; [exact Hnf|].
  destruct st as [r t m c l p w].
  destruct (forEachTask_ok self name existing tasks found r t m c l p w Hnf)
    as [l' Hl']. rewrite Hl' in H. inversion H; subst. reflexivity.
Qed.

Lemma checkTasks_timeout_sound :
  forall fuel st,
    fst (checkTasks fuel self getTasks name existingTasks existing st)
    = Throw "service timed out" ->
    taskRunning st = false /\
    forall k,
      (polls st <= k
       < polls (snd (checkTasks fuel self getTasks name existingTasks
                       existing st)))%nat ->
      forall tsk, In tsk (getTasks k) -> isNew existing tsk = true ->
                  isRunning tsk = false.
Proof.
  induction fuel as [|fuel IH]; intros st H; simpl in *; [discriminate|].
  unfold checkBody in *.
  destruct (forEachTask self name existing (getTasks (polls st)) false
              (set_polls (S (polls st)) st)) as [[o f] s1] eqn:E.
  pose proof (forEachTask_frame self name existing _ _ _ _ _ _ E)
    as (Ht & Hm & Hc & Hp & Hw & _).
  destruct o as [msg|].
  - simpl in H. inversion H; subst.
    destruct (forEachTask_throw_origin self name existing _ _ _ _ _ _ E)
      as (tsk & _ & _ & _ & Hmsg).
    exfalso. exact (failureMessage_not_timeout tsk (eq_sym Hmsg)).
  - destruct (forEachTask_completes _ _ _ _ _ E) as [_ Hrun].
    destruct f; [|discriminate H].
    destruct st as [r t m c l p w]. destruct s1 as [r1 t1 m1 c1 l1 p1 w1].
    unfold runningAfter in Hrun. simpl in *. subst t1 m1 c1 p1 w1.
    unfold set_times in *. simpl in *.
    assert (Hhere : r1 = false ->
              r = false /\
              forall tsk, In tsk (getTasks p) -> isNew existing tsk = true ->
                          isRunning tsk = false).
    { intros Hr1. rewrite Hr1 in Hrun. symmetry in Hrun.
      apply orb_false_iff in Hrun. destruct Hrun as [Hr Hex].
      split; [exact Hr|]. intros tsk Hin Hn.
      pose proof (existsb_false_inv _ _ Hex tsk Hin) as Hx. simpl in Hx.
      rewrite Hn in Hx. exact Hx. }
    destruct ((t + 1 >? maxWaitTimes self) && negb r1) eqn:C1.
    + simpl in *. apply andb_true_iff in C1. destruct C1 as [_ Hr1].
      destruct r1; [discriminate|].
      destruct (Hhere eq_refl) as [Hr Hall].
      split; [exact Hr|]. intros k Hk. assert (k = p) by lia. subst k.
      exact Hall.
    + destruct (r1 && negb (truthy m)) eqn:C2; [discriminate H|].
      destruct (IH _ H) as [Hr' Hrest]. 
      assert (Hr1 : r1 = false).
      { destruct r1; [|reflexivity].
        simpl in Hr'. destruct (truthy m); simpl in Hr';
          [destruct (c + 1 >=? self_monitorCount self)|];
          simpl in Hr'; discriminate. }
      destruct (Hhere Hr1) as [Hr Hall].
      split; [exact Hr|]. intros k Hk.
      destruct (Nat.eq_dec k p) as [-> | Hne]; [exact Hall|].
      apply Hrest. rewrite Hr1 in *. simpl in *. lia.
Qed.

End TimeoutSound.

(** X5: A call ends with the timeout only if no poll it made showed a task
    outside the baseline in state [running]. *)
Theorem timeout_only_without_running :
  forall self getTasks name monitor polls0 log0 fuel,
    fst (waitUntilRunning fuel self getTasks name monitor polls0 log0)
    = Throw "service timed out" ->
    forall k tsk,
      (polls0 < k
       < polls (snd (waitUntilRunning fuel self getTasks name monitor
                       polls0 log0)))%nat ->
      In tsk (getTasks k) ->
      includes (baseline (getTasks polls0)) (ID tsk) = false ->
      State tsk <> "running".
Proof.
  intros self getTasks name monitor polls0 log0 fuel.
  unfold waitUntilRunning.
  set (st0 := mkSession false 0 monitor 0 _ (S polls0) 1).
  intros H k tsk Hk Hin Hn Hs.
  destruct (checkTasks_timeout_sound self getTasks name (getTasks polls0)
              (baseline (getTasks polls0)) fuel st0 H) as [_ Hall].
  assert (Hx : isRunning tsk = false).
  { apply (Hall k); [change (polls st0) with (S polls0); lia | exact Hin |].
    unfold isNew. rewrite Hn. reflexivity. }
  unfold isRunning in Hx. rewrite Hs in Hx. discriminate.
Qed.

Lemma timeout_only_without_running_witness :
  State (mkTask "t2" "pending" None) <> "running".
Proof.
  apply (timeout_only_without_running budget3 pendingForever "svc"
           (VBool false) 0 [] 4 eq_refl 2%nat (mkTask "t2" "pending" None)).
  - vm_compute. split; repeat constructor.
  - right. left. reflexivity.
  - reflexivity.
Defined.

(** X6: Without extended monitoring, a cycle that shows a running task
    outside the baseline and no failed one ends the call as converged,
    also when the poll counter is already past the budget: the timeout is
    only for calls that have seen nothing running. *)
Theorem running_task_ends_monitoring :
  forall fuel self getTasks name existingTasks existing st,
    truthy (monitoring st) = false ->
    noFailure existing (getTasks (polls st)) ->
    existsb (isNew existing) (getTasks (polls st)) = true ->
    runningAfter existing st (getTasks (polls st)) = true ->
    fst (checkTasks (S fuel) self getTasks name existingTasks existing st)
    = Return Done /\
    polls (snd (checkTasks (S fuel) self getTasks name existingTasks
                  existing st)) = S (polls st) /\
    times (snd (checkTasks (S fuel) self getTasks name existingTasks
                  existing st)) = times st + 1.
Proof.
  intros fuel self getTasks name existingTasks existing st
         Hmon Hok Hnew Hrun.
  destruct (checkBody_done self getTasks name existingTasks existing st
              Hok Hnew Hrun Hmon) as [l' Hb].
  simpl. rewrite Hb. simpl. repeat split.
Qed.

Lemma running_task_ends_monitoring_witness :
  fst (checkTasks 1 budget3 pendingThenRunning "svc"
         (pendingThenRunning 0%nat) ["t1"]
         (mkSession false 9 (VBool false) 0 [] 2 10))
  = Return Done /\
  polls (snd (checkTasks 1 budget3 pendingThenRunning "svc"
                (pendingThenRunning 0%nat) ["t1"]
                (mkSession false 9 (VBool false) 0 [] 2 10))) = 3%nat /\
  times (snd (checkTasks 1 budget3 pendingThenRunning "svc"
                (pendingThenRunning 0%nat) ["t1"]
                (mkSession false 9 (VBool false) 0 [] 2 10))) = 9 + 1.
Proof.
  apply (running_task_ends_monitoring 0 budget3 pendingThenRunning "svc"
           (pendingThenRunning 0%nat) ["t1"]
           (mkSession false 9 (VBool false) 0 [] 2 10)).
  - reflexivity.
  - intros tsk [H | [H | []]] _; subst; reflexivity.
  - reflexivity.
  - reflexivity.
Defined.

Lemma waitUntilRunning_terminates_witness :
  fst (waitUntilRunning 6 budget3 pendingForever "svc" (VBool true) 0 [])
  <> OutOfFuel.
Proof.
  apply (waitUntilRunning_terminates budget3 pendingForever "svc"
           (VBool true) 0 [] 6).
  vm_compute. repeat constructor.
Defined.
